(** * The find-video edge function: video discovery and ranking

    A shallow embedding of the Deno edge function that, given a learning
    topic, asks a generative service for a plan (sub-topics and a main
    search query), searches YouTube for the main query and for every
    sub-topic, scores and ranks the candidates, and assembles the response.

    Conventions of the embedding.
    - JavaScript numbers are IEEE doubles.  A finite double is given by its
      value, a rational ([Q]).  Every arithmetic operation of the scoring
      rounds its exact result to the nearest double, a tie going to the even
      significand ([binary64]), as the hardware does; the scoring expression
      is written once, over an interface of the arithmetic, and is run on
      the finite doubles, on the numbers with NaN ([number]), and on the
      kernel's binary64 floats, with which the first is compared on sample
      inputs.  Infinities are not modelled: no operation of the scoring
      overflows for counts of fewer than 300 digits.  The division whose
      rounding decides a digit of [toFixed] is modelled bit for bit as well
      ([double_div]).
    - The items of the provider are well formed: a date that parses and
      counts that are decimal numerals.  What the scoring expression returns
      for a value that is not a number is stated over [number].
    - A JavaScript value read from JSON is a [json]; [undefined] is [None]
      of [option json].  JSON numbers are modelled by integers (of a
      magnitude below 10^21, which print as their digits).
    - Strings are sequences of bytes; the white space [trim] strips is that
      of ASCII.
    - Code that may throw returns a [result]; [try]/[catch] is a [match].
    - The network, the process environment, the clock and [JSON.parse] are
      fields of an environment record [Env]; the handler is a function of
      the environment and the request. *)

From Stdlib Require Import ZArith QArith Qround Qminmax Qpower Lqa.
From Stdlib Require Import Bool List String Ascii DecimalString Lia.
From Stdlib Require Import Sorted Permutation.
From Stdlib Require Uint63 PrimFloat FloatOps SpecFloat.
Import ListNotations.

Local Open Scope Z_scope.
Local Open Scope string_scope.

(** ** Exceptions and results *)

(** Every exception raised in the function is an [Error] object or one of
    its subclasses, so [error instanceof Error] always holds in the final
    [catch].  The texts of [TypeError] and [SyntaxError] are the engine's;
    no statement below depends on them. *)
Inductive exn : Type :=
| Error (message : string)
| TypeError (message : string)
| SyntaxError (message : string).

Definition message (e : exn) : string :=
  match e with
  | Error m | TypeError m | SyntaxError m => m
  end.

Inductive result (A : Type) : Type :=
| Return (a : A)
| Throw (e : exn).

Arguments Return {A} a.
Arguments Throw {A} e.

Definition bind {A B : Type} (r : result A) (k : A -> result B) : result B :=
  match r with
  | Return a => k a
  | Throw e => Throw e
  end.

Notation "x <- r ;; k" := (bind r (fun x => k))
  (at level 61, r at next level, right associativity).

(** ** JavaScript values decoded from JSON *)

#[local] Set Warnings "-register-all".

Inductive json : Type :=
| JNull
| JBool (b : bool)
| JNum (n : Z)
| JStr (s : string)
| JArr (items : list json)
| JObj (fields : list (string * json)).

(** A value is a [json] or [undefined]. *)
Definition value : Type := option json.
Definition undefined : value := None.

(** Decimal text of an integer ([Number.prototype.toString] on an integer
    below 2^53, and the conversion a template literal applies to it). *)
Definition showZ (n : Z) : string := NilZero.string_of_int (Z.to_int n).

(** ToBoolean. *)
Definition truthy (v : value) : bool :=
  match v with
  | None | Some JNull => false
  | Some (JBool b) => b
  | Some (JNum n) => negb (n =? 0)%Z
  | Some (JStr s) => negb (String.eqb s "")
  | Some (JArr _) | Some (JObj _) => true
  end.

(** [a || b]. *)
Definition or_else (a b : value) : value := if truthy a then a else b.

(** ToString, as applied by template literals and by string concatenation.
    An array joins the texts of its elements with commas, an element that is
    [null] contributing the empty string. *)
Fixpoint json_toString (j : json) : string :=
  match j with
  | JNull => "null"
  | JBool true => "true"
  | JBool false => "false"
  | JNum n => showZ n
  | JStr s => s
  | JArr items =>
      String.concat ","
        (map (fun x => match x with JNull => "" | _ => json_toString x end) items)
  | JObj _ => "[object Object]"
  end.

Definition toString (v : value) : string :=
  match v with
  | None => "undefined"
  | Some j => json_toString j
  end.

Fixpoint lookup (key : string) (fields : list (string * json)) : value :=
  match fields with
  | [] => undefined
  | (k, v) :: rest => if String.eqb k key then Some v else lookup key rest
  end.

(** Property read [v.key] for a key that no prototype defines ([topic],
    [choices], [message], [content], [subtasks], [mainSearchQuery], [title],
    [searchQuery]): it throws on [null] and [undefined], reads an own
    property of an object, and is [undefined] on every other value. *)
Definition get (v : value) (key : string) : result value :=
  match v with
  | None =>
      Throw (TypeError ("Cannot read properties of undefined (reading '" ++ key ++ "')"))
  | Some JNull =>
      Throw (TypeError ("Cannot read properties of null (reading '" ++ key ++ "')"))
  | Some (JObj fields) => Return (lookup key fields)
  | Some _ => Return undefined
  end.

(** Optional property read [v?.key]. *)
Definition get_opt (v : value) (key : string) : value :=
  match v with
  | Some (JObj fields) => lookup key fields
  | _ => undefined
  end.

(** Optional element read [v?.[0]]. *)
Definition first_opt (v : value) : value :=
  match v with
  | Some (JArr items) => hd_error items
  | Some (JStr (String c _)) => Some (JStr (String c ""))
  | Some (JObj fields) => lookup "0" fields
  | _ => undefined
  end.

(** The double quote, for the texts that contain one. *)
Definition dquote : string := String (ascii_of_nat 34) EmptyString.

(** ** String methods used on the generative reply *)

(** White space and line terminators, as far as one-byte characters go. *)
Definition is_space (c : ascii) : bool :=
  let n := nat_of_ascii c in
  orb (Nat.eqb n 32) (andb (Nat.leb 9 n) (Nat.leb n 13)).

Fixpoint trimStart (s : string) : string :=
  match s with
  | String c rest => if is_space c then trimStart rest else s
  | EmptyString => EmptyString
  end.

(** [trimEnd] keeps a character when it is not a space or when something
    that is kept follows it. *)
Fixpoint trimEnd (s : string) : string :=
  match s with
  | EmptyString => EmptyString
  | String c rest =>
      match trimEnd rest with
      | EmptyString => if is_space c then EmptyString else String c EmptyString
      | kept => String c kept
      end
  end.

Definition trim (s : string) : string := trimEnd (trimStart s).

Definition startsWith (s p : string) : bool := prefix p s.

(** [s.slice(n)] for [n >= 0]. *)
Fixpoint slice_from (n : nat) (s : string) : string :=
  match n, s with
  | O, _ => s
  | S n', String _ rest => slice_from n' rest
  | S _, EmptyString => EmptyString
  end.

(** [s.slice(0, -n)]. *)
Definition slice_to_end_minus (n : nat) (s : string) : string :=
  substring 0 (String.length s - n) s.

Definition endsWith (s p : string) : bool :=
  andb (Nat.leb (String.length p) (String.length s))
       (String.eqb (slice_from (String.length s - String.length p) s) p).

(** ** Binary64 arithmetic *)

Local Open Scope Q_scope.

(** The integer nearest to [x], a tie going to the even one. *)
Definition round_to_even (x : Q) : Z :=
  let f := Qfloor x in
  match Qcompare (x - inject_Z f) (1 # 2) with
  | Lt => f
  | Gt => (f + 1)%Z
  | Eq => if Z.even f then f else (f + 1)%Z
  end.

(** The binary exponent of [x > 0]: the [e] with [2^e <= x < 2^(e+1)]. *)
Definition ilog2 (x : Q) : Z :=
  let e := (Z.log2 (Qnum x) - Z.log2 (Zpos (Qden x)))%Z in
  if Qle_bool (2 ^ e) x then e else (e - 1)%Z.

(** The double nearest to [x > 0]: with [e] the binary exponent of [x] (not
    below that of the subnormal numbers), the multiple of [2^(e-52)] nearest
    to [x], a tie going to the even multiple. *)
Definition binary64_pos (x : Q) : Q :=
  let s := (52 - Z.max (ilog2 x) (-1022))%Z in
  inject_Z (round_to_even (x * 2 ^ s)) * 2 ^ (- s).

(** Round to nearest, ties to even: the rounding of every operation. *)
Definition binary64 (x : Q) : Q :=
  match Qnum x with
  | Z0 => 0
  | Zpos _ => binary64_pos x
  | Zneg _ => - binary64_pos (- x)
  end.

(** The double an integer converts to. *)
Definition double_of_Z (n : Z) : Q := binary64 (inject_Z n).


(** The operators and [Math] functions the scoring uses.  [literal] is a
    numeric literal of the source (each of them is a double). *)
Class Arithmetic (N : Type) : Type := {
  literal : Q -> N;
  sub : N -> N -> N;
  div : N -> N -> N;
  mul : N -> N -> N;
  add : N -> N -> N;
  gt : N -> N -> bool;
  Math_max : N -> N -> N;
  Math_min : N -> N -> N;
  round : N -> N
}.

(** [Math.round]: the nearest integer, a tie going to the larger one. *)
Definition Math_round (x : Q) : Z := Qfloor (x + (1 # 2)).

(** The finite doubles. *)
#[export] Instance finite_doubles : Arithmetic Q := {|
  literal := fun q => q;
  sub := fun x y => binary64 (x - y);
  div := fun x y => binary64 (x / y);
  mul := fun x y => binary64 (x * y);
  add := fun x y => binary64 (x + y);
  gt := fun x y => negb (Qle_bool x y);
  Math_max := Qmax;
  Math_min := Qmin;
  round := fun x => inject_Z (Math_round x)
|}.




(** ** EngagementScorer (searchYouTube, the body of the map callback) *)

Definition msPerDay : Z := (1000 * 60 * 60 * 24)%Z.

Section Scoring.

Context {N : Type} `{Arithmetic N}.

(** [Math.max(1, (Date.now() - publishDate.getTime()) / (1000*60*60*24))]. *)
Definition daysSincePublish (now publishTime : N) : N :=
  Math_max (literal 1) (div (sub now publishTime) (literal (inject_Z msPerDay))).

(** The argument of [Math.round] in the source. *)
Definition rawScore (viewCount likeCount days : N) : N :=
  add (add (mul (div viewCount days) (literal (1 # 2)))
           (mul likeCount (literal 10)))
      (if gt viewCount (literal 100000) then literal 50 else literal 0).

(** The local [const engagementScore = Math.round(...)], and the field
    [engagementScore: Math.min(100, Math.max(1, engagementScore / 1000))]. *)
Definition scoreOf (viewCount likeCount publishTime now : N) : N :=
  let engagementScore := round (rawScore viewCount likeCount (daysSincePublish now publishTime)) in
  Math_min (literal 100) (Math_max (literal 1) (div engagementScore (literal 1000))).

(** The formula as the specification words it: the raw score is divided by
    1000 before it is rounded.  Kept apart from [scoreOf], which follows the
    source, to compare the two. *)
Definition spec_scoreOf (viewCount likeCount publishTime now : N) : N :=
  Math_min (literal 100)
    (Math_max (literal 1)
       (round (div (rawScore viewCount likeCount (daysSincePublish now publishTime))
                   (literal 1000)))).

End Scoring.

(** The score of a well-formed item: its counts, the time of its
    publication and the reading of the clock are integers. *)
Definition engagementScore (viewCount likeCount publishedAt now : Z) : Q :=
  scoreOf (double_of_Z viewCount) (double_of_Z likeCount)
          (double_of_Z publishedAt) (double_of_Z now).

Definition spec_engagementScore (viewCount likeCount publishedAt now : Z) : Q :=
  spec_scoreOf (double_of_Z viewCount) (double_of_Z likeCount)
               (double_of_Z publishedAt) (double_of_Z now).

(** ** formatViewCount *)

Local Open Scope Z_scope.

(** The integer nearest to [p / q], a tie going to the even one. *)
Definition round_half_even (p q : Z) : Z :=
  let f := p / q in
  let r := p mod q in
  if 2 * r <? q then f
  else if q <? 2 * r then f + 1
  else if Z.even f then f else f + 1.

(** The double [a / b] for integers [a >= b > 0] below 2^53: with [e] the
    binary exponent of the quotient, the 53-bit significand is the quotient
    scaled by [2^(52-e)] and rounded to nearest, ties to even.  For these
    arguments [e <= 52]. *)
Definition double_div (a b : Z) : Q :=
  let e := Z.log2 (a / b) in
  let s := 52 - e in
  Qmake (round_half_even (a * 2 ^ s) b) (Z.to_pos (2 ^ s)).

(** The integer [n] for which [n / 10 - x] is closest to zero, the larger
    one on a tie ([Number.prototype.toFixed], step 9 of its algorithm, with
    one fraction digit). *)
Definition nearest_tenth (x : Q) : Z := Qfloor (x * 10 + (1 # 2))%Q.

(** [x.toFixed(1)] for [0 <= x < 10^21]: the digits of [n] with a point
    before the last one. *)
Definition toFixed1 (x : Q) : string :=
  let n := nearest_tenth x in
  showZ (n / 10) ++ "." ++ showZ (n mod 10).

Definition formatViewCount (count : Z) : string :=
  if 1000000 <=? count then toFixed1 (double_div count 1000000) ++ "M"
  else if 1000 <=? count then toFixed1 (double_div count 1000) ++ "K"
  else showZ count.

(** The same quotient computed by the kernel's binary64 division, and the
    rational a finite positive binary64 number denotes; used to compare
    [double_div] with the hardware arithmetic on sample inputs. *)
Definition binary64_div (a b : Z) : PrimFloat.float :=
  PrimFloat.div (PrimFloat.of_uint63 (Uint63.of_Z a)) (PrimFloat.of_uint63 (Uint63.of_Z b)).

Definition binary64_value (f : PrimFloat.float) : option Q :=
  match FloatOps.Prim2SF f with
  | SpecFloat.S754_finite false m e =>
      Some (if 0 <=? e then inject_Z (Z.pos m * 2 ^ e)
            else Qmake (Z.pos m) (Z.to_pos (2 ^ (- e))))
  | _ => None
  end.

Definition agrees_with_binary64 (a b : Z) : bool :=
  match binary64_value (binary64_div a b) with
  | Some q => Qeq_bool q (double_div a b)
  | None => false
  end.

(** The scoring expression on the kernel's floats.  A literal is the
    quotient of its numerator and denominator (exact for the literals of the
    source); [Math.round] goes through the value of the float. *)
Definition float_of_Z (n : Z) : PrimFloat.float :=
  match n with
  | Zneg p => PrimFloat.opp (PrimFloat.of_uint63 (Uint63.of_Z (Zpos p)))
  | _ => PrimFloat.of_uint63 (Uint63.of_Z n)
  end.

Definition float_value (f : PrimFloat.float) : option Q :=
  match FloatOps.Prim2SF f with
  | SpecFloat.S754_zero _ => Some 0%Q
  | SpecFloat.S754_finite s m e =>
      let v := if 0 <=? e then inject_Z (Z.pos m * 2 ^ e)
               else Qmake (Z.pos m) (Z.to_pos (2 ^ (- e))) in
      Some (if s then Qopp v else v)
  | _ => None
  end.

#[export] Instance kernel_doubles : Arithmetic PrimFloat.float := {|
  literal := fun q => PrimFloat.div (float_of_Z (Qnum q)) (float_of_Z (Zpos (Qden q)));
  sub := PrimFloat.sub;
  div := PrimFloat.div;
  mul := PrimFloat.mul;
  add := PrimFloat.add;
  gt := fun x y => PrimFloat.ltb y x;
  Math_max := fun x y => if PrimFloat.ltb x y then y else x;
  Math_min := fun x y => if PrimFloat.ltb y x then y else x;
  round := fun x => match float_value x with
                    | Some q => float_of_Z (Math_round q)
                    | None => x
                    end
|}.

(** A sample is a view count, a like count, a time of publication and a
    reading of the clock. *)
Definition score_agrees_with_binary64 (sample : Z * Z * Z * Z) : bool :=
  let '(viewCount, likeCount, publishedAt, now) := sample in
  match float_value (scoreOf (float_of_Z viewCount) (float_of_Z likeCount)
                             (float_of_Z publishedAt) (float_of_Z now)) with
  | Some q => Qeq_bool q (engagementScore viewCount likeCount publishedAt now)
  | None => false
  end.

(** ** Lists as JavaScript arrays *)

Section Arrays.
Context {A B : Type}.

(** [l.map((x, i) => f i x)], the index counting from [start]. *)
Fixpoint mapi_from (start : nat) (f : nat -> A -> B) (l : list A) : list B :=
  match l with
  | [] => []
  | x :: rest => f start x :: mapi_from (S start) f rest
  end.

Definition mapi (f : nat -> A -> B) (l : list A) : list B := mapi_from 0 f l.

(** [l.sort(cmp)].  The sort is stable: of two elements the comparator does
    not order strictly, the one that came first stays first.  [after a b]
    stands for [cmp(a, b) > 0]; an element is put in front of the first
    later element it need not follow. *)
Fixpoint sort_insert (after : A -> A -> bool) (a : A) (sorted : list A) : list A :=
  match sorted with
  | [] => [a]
  | h :: rest => if after a h then h :: sort_insert after a rest else a :: sorted
  end.

Definition Array_sort (after : A -> A -> bool) (l : list A) : list A :=
  fold_right (sort_insert after) [] l.

End Arrays.

(** [await Promise.all(branches)]: the results in the order of the branches,
    or the exception of the first branch that rejected.  (The only branches
    that reject below do so before their first [await], hence in index
    order.) *)
Fixpoint Promise_all {A : Type} (branches : list (result A)) : result (list A) :=
  match branches with
  | [] => Return []
  | b :: rest =>
      match b with
      | Return a => rs <- Promise_all rest ;; Return (a :: rs)
      | Throw e => Throw e
      end
  end.

(** ** Data *)

(** The interface [YouTubeVideo] of the source. *)
Module YouTubeVideo.
Record t : Type := mk {
  videoId : string;
  title : string;
  channel : string;
  viewCount : string;
  publishedAt : string;
  duration : string;
  engagementScore : Q
}.
End YouTubeVideo.

(** An item of the provider's [videos] listing, with the fields the source
    reads.  [publishedAt_time] is [new Date(item.snippet.publishedAt).getTime()];
    a statistic is the integer [parseInt] reads from the provider's decimal
    numeral, [None] when the field (or [statistics]) is absent. *)
Module Item.
Record t : Type := mk {
  id : string;
  snippet_title : string;
  snippet_channelTitle : string;
  snippet_publishedAt : string;
  publishedAt_time : Z;
  contentDetails_duration : string;
  statistics_viewCount : option Z;
  statistics_likeCount : option Z
}.
End Item.

(** What [fetch] resolves to: the status and the outcome of [.json()]. *)
Module Fetch.
Record Response (A : Type) : Type := mk {
  status : Z;
  json : result A
}.
Arguments mk {A} status json.
Arguments status {A} r.
Arguments json {A} r.

Definition ok {A : Type} (r : Response A) : bool :=
  ((200 <=? status r) && (status r <=? 299))%Z.
End Fetch.

(** The place a search is issued from: the main query, or the branch of the
    subtask at a plan index.  The environment may answer each differently. *)
Inductive site : Type :=
| MainQuery
| SubtaskQuery (idx : nat).

(** The environment of one request.
    - [Deno_env_get] is [Deno.env.get].
    - [ai_fetch key topic] is the POST to the generative gateway made with
      that key for that topic text ([Throw] when [fetch] rejects).
    - [JSON_parse] is [JSON.parse].
    - [search_fetch site query key maxResults] is the GET of the provider's
      search listing; its decoded body is the list of [item.id.videoId] of
      [items], [None] when [items] is absent.
    - [videos_fetch site ids key] is the GET of the details of those ids;
      its decoded body is [items], [None] when absent.
    - [Date_now site i] is what [Date.now()] returns while the i-th item of
      that search is scored. *)
Record Env : Type := {
  Deno_env_get : string -> option string;
  ai_fetch : string -> string -> result (Fetch.Response json);
  JSON_parse : string -> result json;
  search_fetch : site -> string -> string -> nat -> result (Fetch.Response (option (list string)));
  videos_fetch : site -> string -> string -> result (Fetch.Response (option (list Item.t)));
  Date_now : site -> nat -> Z
}.

(** The request: its method and the outcome of [req.json()]. *)
Module Request.
Record t : Type := mk {
  method : string;
  json : result json
}.
End Request.

(** One video of a subtask in the response. *)
Module RankedVideo.
Record t : Type := mk {
  videoId : string;
  title : string;
  channel : string;
  views : string;
  engagementScore : Q;
  reason : string
}.
End RankedVideo.

(** One subtask of the response.  [title] and [description] are whatever
    values the plan held. *)
Module SubtaskResult.
Record t : Type := mk {
  title : value;
  description : value;
  videos : list RankedVideo.t
}.
End SubtaskResult.

(** The object of the success response. *)
Module DiscoveryResult.
Record t : Type := mk {
  videoId : string;
  title : string;
  channel : string;
  reason : string;
  subtasks : list SubtaskResult.t
}.
End DiscoveryResult.

(** The body handed to [new Response], before [JSON.stringify]. *)
Inductive Body : Type :=
| NoBody
| ErrorBody (error : string)
| ResultBody (r : DiscoveryResult.t).

(** The response; a response built without a status has status 200.  Every
    response carries the CORS headers, which are not modelled. *)
Record Response : Type := {
  status : Z;
  body : Body
}.

(** ** searchYouTube *)

(** [a] must come after [b] under the comparator
    [(a, b) => b.engagementScore - a.engagementScore] when that difference
    is positive. *)
Definition sorts_after (a b : YouTubeVideo.t) : bool :=
  match YouTubeVideo.engagementScore a ?= YouTubeVideo.engagementScore b with
  | Lt => true
  | _ => false
  end%Q.

(** [parseInt(item.statistics?.viewCount || '0')] and the same for likes. *)
Definition viewCountOf (item : Item.t) : Z :=
  match Item.statistics_viewCount item with Some n => n | None => 0 end.

Definition likeCountOf (item : Item.t) : Z :=
  match Item.statistics_likeCount item with Some n => n | None => 0 end.

(** The callback of [detailsData.items?.map]. *)
Definition scoreItem (now : Z) (item : Item.t) : YouTubeVideo.t :=
  let viewCount := viewCountOf item in
  let likeCount := likeCountOf item in
  {| YouTubeVideo.videoId := Item.id item;
     YouTubeVideo.title := Item.snippet_title item;
     YouTubeVideo.channel := Item.snippet_channelTitle item;
     YouTubeVideo.viewCount := formatViewCount viewCount;
     YouTubeVideo.publishedAt := Item.snippet_publishedAt item;
     YouTubeVideo.duration := Item.contentDetails_duration item;
     YouTubeVideo.engagementScore :=
       engagementScore viewCount likeCount (Item.publishedAt_time item) now |}.

Section Handler.

Variable env : Env.

Definition searchYouTube (at_ : site) (query apiKey : string) (maxResults : nat)
  : result (list YouTubeVideo.t) :=
  searchResponse <- search_fetch env at_ query apiKey maxResults ;;
  if negb (Fetch.ok searchResponse) then
    Throw (Error ("YouTube API error: " ++ showZ (Fetch.status searchResponse)))
  else
    searchData <- Fetch.json searchResponse ;;
    let videoIds := option_map (String.concat ",") searchData in
    match videoIds with
    | None | Some EmptyString => Return []
    | Some ids =>
        detailsResponse <- videos_fetch env at_ ids apiKey ;;
        if negb (Fetch.ok detailsResponse) then
          Throw (Error "Failed to get video details")
        else
          detailsData <- Fetch.json detailsResponse ;;
          let videos :=
            match detailsData with
            | Some items => mapi (fun i item => scoreItem (Date_now env at_ i) item) items
            | None => []
            end in
          Return (Array_sort sorts_after videos)
    end.

(** ** The planning stage *)

(** The body of the inner [try]: the reply must be a string ([trim] is
    called on it), its code fence is stripped, and the rest is parsed. *)
Definition parseContent (content : value) : result json :=
  match content with
  | Some (JStr text) =>
      let c0 := trim text in
      let c1 := if startsWith c0 "```json" then slice_from 7 c0 else c0 in
      let c2 := if startsWith c1 "```" then slice_from 3 c1 else c1 in
      let c3 := if endsWith c2 "```" then slice_to_end_minus 3 c2 else c2 in
      JSON_parse env (trim c3)
  | None => Throw (TypeError "Cannot read properties of undefined (reading 'trim')")
  | Some JNull => Throw (TypeError "Cannot read properties of null (reading 'trim')")
  | Some _ => Throw (TypeError "content.trim is not a function")
  end.

(** The object literal of the [catch] branch: its subtasks for the text of
    the topic, and the whole plan. *)
Definition fallbackSubtasks (t : string) : list json :=
  [ JObj [ ("title", JStr ("Introduction to " ++ t));
           ("searchQuery", JStr (t ++ " introduction tutorial")) ];
    JObj [ ("title", JStr ("Core concepts of " ++ t));
           ("searchQuery", JStr (t ++ " explained for beginners")) ];
    JObj [ ("title", JStr ("Practice " ++ t));
           ("searchQuery", JStr (t ++ " examples practice")) ] ].

Definition fallbackPlan (topic : value) : json :=
  JObj
    [ ("subtasks", JArr (fallbackSubtasks (toString topic)));
      ("mainSearchQuery", JStr (toString topic ++ " tutorial explained")) ].

(** [parsedData] after the inner [try]/[catch]. *)
Definition parsedDataOf (topic content : value) : json :=
  match parseContent content with
  | Return data => data
  | Throw _ => fallbackPlan topic
  end.

(** ** The subtask branches *)

(** [videos.map((v, i) => ...)] of a branch. *)
Definition rankVideos (videos : list YouTubeVideo.t) : list RankedVideo.t :=
  mapi
    (fun i v =>
       {| RankedVideo.videoId := YouTubeVideo.videoId v;
          RankedVideo.title := YouTubeVideo.title v;
          RankedVideo.channel := YouTubeVideo.channel v;
          RankedVideo.views := YouTubeVideo.viewCount v;
          RankedVideo.engagementScore := YouTubeVideo.engagementScore v;
          RankedVideo.reason :=
            if Nat.eqb i 0 then "Highest engagement for this topic"
            else "Recommended video #" ++ showZ (Z.of_nat i + 1) |})
    videos.

(** The query a branch searches for:
    [subtask.searchQuery || `${topic} ${subtask.title}`]. *)
Definition subtaskQuery (topic : value) (subtask : json) : result string :=
  searchQuery <- get (Some subtask) "searchQuery" ;;
  if truthy searchQuery then Return (toString searchQuery)
  else
    title <- get (Some subtask) "title" ;;
    Return (toString topic ++ " " ++ toString title).

(** [title] and [description] of a branch's result, with the given videos. *)
Definition subtaskEntry (idx : nat) (subtask : json) (videos : list RankedVideo.t)
  : result SubtaskResult.t :=
  title <- get (Some subtask) "title" ;;
  searchQuery <- get (Some subtask) "searchQuery" ;;
  Return
    {| SubtaskResult.title :=
         or_else title (Some (JStr ("Part " ++ showZ (Z.of_nat idx + 1))));
       SubtaskResult.description := or_else searchQuery (Some (JStr ""));
       SubtaskResult.videos := videos |}.

(** The async callback mapped over the subtasks.  Whatever the [try] block
    throws is caught; the [catch] block reads [subtask.title] for its log
    line before it builds the entry with no videos. *)
Definition subtaskBranch (topic : value) (apiKey : string) (idx : nat) (subtask : json)
  : result SubtaskResult.t :=
  let attempt :=
    query <- subtaskQuery topic subtask ;;
    videos <- searchYouTube (SubtaskQuery idx) query apiKey 5 ;;
    subtaskEntry idx subtask (rankVideos videos) in
  match attempt with
  | Return entry => Return entry
  | Throw _ =>
      _ <- get (Some subtask) "title" ;;
      subtaskEntry idx subtask []
  end.

(** [(parsedData.subtasks || []).slice(0, 5)], up to the point where [map]
    is looked up on it: a string has [slice] but its result has no [map];
    the other values that are not arrays have no [slice]. *)
Definition planSubtasks (parsedData : json) : result (list json) :=
  subtasks <- get (Some parsedData) "subtasks" ;;
  match or_else subtasks (Some (JArr [])) with
  | Some (JArr items) => Return (firstn 5 items)
  | Some (JStr _) =>
      Throw (TypeError "(intermediate value).slice(...).map is not a function")
  | _ => Throw (TypeError "(intermediate value).slice is not a function")
  end.

(** ** The assembly stage: from [parsedData] to the success response *)

(** The argument of the main search:
    [parsedData.mainSearchQuery || `${topic} tutorial`]. *)
Definition mainQueryOf (topic : value) (parsedData : json) : result string :=
  mainSearchQuery <- get (Some parsedData) "mainSearchQuery" ;;
  Return (toString (or_else mainSearchQuery (Some (JStr (toString topic ++ " tutorial"))))).

(** The success response. *)
Definition successResponse (topic : value) (primaryVideo : YouTubeVideo.t)
           (subtasksWithVideos : list SubtaskResult.t) : Response :=
  {| status := 200;
     body :=
       ResultBody
         {| DiscoveryResult.videoId := YouTubeVideo.videoId primaryVideo;
            DiscoveryResult.title := YouTubeVideo.title primaryVideo;
            DiscoveryResult.channel := YouTubeVideo.channel primaryVideo;
            DiscoveryResult.reason :=
              "Best educational video for " ++ dquote ++ toString topic ++ dquote
              ++ " with " ++ YouTubeVideo.viewCount primaryVideo ++ " views";
            DiscoveryResult.subtasks := subtasksWithVideos |} |}.

Definition assemble (topic : value) (apiKey : string) (parsedData : json) : result Response :=
  mainQuery <- mainQueryOf topic parsedData ;;
  mainVideos <- searchYouTube MainQuery mainQuery apiKey 5 ;;
  match hd_error mainVideos with
  | None => Throw (Error "No videos found for this topic")
  | Some primaryVideo =>
      subtasks <- planSubtasks parsedData ;;
      subtasksWithVideos <- Promise_all (mapi (subtaskBranch topic apiKey) subtasks) ;;
      Return (successResponse topic primaryVideo subtasksWithVideos)
  end.

(** ** The handler *)

Definition configured (key : option string) : option string :=
  match key with
  | Some EmptyString | None => None
  | Some k => Some k
  end.

(** [aiData.choices?.[0]?.message?.content]. *)
Definition contentOf (aiData : json) : result value :=
  choices <- get (Some aiData) "choices" ;;
  Return (get_opt (get_opt (first_opt choices) "message") "content").

(** The body of the outer [try]. *)
Definition handle (req : Request.t) : result Response :=
  requestBody <- Request.json req ;;
  topic <- get (Some requestBody) "topic" ;;
  if negb (truthy topic) then
    Return {| status := 400; body := ErrorBody "Topic is required" |}
  else
    match configured (Deno_env_get env "youtube_api_key") with
    | None => Throw (Error "YouTube API key is not configured")
    | Some YOUTUBE_API_KEY =>
        match configured (Deno_env_get env "LOVABLE_API_KEY") with
        | None => Throw (Error "LOVABLE_API_KEY is not configured")
        | Some LOVABLE_API_KEY =>
            aiResponse <- ai_fetch env LOVABLE_API_KEY (toString topic) ;;
            if negb (Fetch.ok aiResponse) then
              if (Fetch.status aiResponse =? 429)%Z then
                Return {| status := 429;
                          body := ErrorBody "Rate limit exceeded. Please try again later." |}
              else if (Fetch.status aiResponse =? 402)%Z then
                Return {| status := 402;
                          body := ErrorBody "Payment required. Please add credits." |}
              else Throw (Error "AI gateway error")
            else
              aiData <- Fetch.json aiResponse ;;
              content <- contentOf aiData ;;
              assemble topic YOUTUBE_API_KEY (parsedDataOf topic content)
        end
    end.

(** The response of the outer [catch]. *)
Definition errorResponse (error : exn) : Response :=
  {| status := 500; body := ErrorBody (message error) |}.

(** The function given to [serve]. *)
Definition handler (req : Request.t) : Response :=
  if String.eqb (Request.method req) "OPTIONS" then {| status := 200; body := NoBody |}
  else
    match handle req with
    | Return response => response
    | Throw error => errorResponse error
    end.

End Handler.

(** The request gets as far as the assembly stage: it is not a preflight,
    its body holds a truthy [topic], both keys are configured, and the
    gateway answered with a success status and a body from which the
    content (whatever it is) could be read.  [parsedData] is then the parsed
    content or the fallback plan. *)
Definition reaches_assembly (env : Env) (req : Request.t)
           (topic : value) (apiKey : string) (parsedData : json) : Prop :=
  String.eqb (Request.method req) "OPTIONS" = false /\
  exists requestBody lovableKey aiResponse aiData content,
    Request.json req = Return requestBody /\
    get (Some requestBody) "topic" = Return topic /\
    truthy topic = true /\
    configured (Deno_env_get env "youtube_api_key") = Some apiKey /\
    configured (Deno_env_get env "LOVABLE_API_KEY") = Some lovableKey /\
    ai_fetch env lovableKey (toString topic) = Return aiResponse /\
    Fetch.ok aiResponse = true /\
    Fetch.json aiResponse = Return aiData /\
    contentOf aiData = Return content /\
    parsedData = parsedDataOf env topic content.

(** The videos a branch ends with, given the outcome of its search. *)
Definition videosOf (outcome : result (list YouTubeVideo.t)) : list RankedVideo.t :=
  match outcome with
  | Return videos => rankVideos videos
  | Throw _ => []
  end.

(** The request is not a preflight and its body holds no truthy [topic]. *)
Definition lacks_topic (req : Request.t) : Prop :=
  String.eqb (Request.method req) "OPTIONS" = false /\
  exists requestBody topic,
    Request.json req = Return requestBody /\
    get (Some requestBody) "topic" = Return topic /\
    truthy topic = false.

(** The request gets as far as the generative gateway, which answers with
    [aiResponse]. *)
Definition gateway_answers (env : Env) (req : Request.t)
           (aiResponse : Fetch.Response json) : Prop :=
  String.eqb (Request.method req) "OPTIONS" = false /\
  exists requestBody topic apiKey lovableKey,
    Request.json req = Return requestBody /\
    get (Some requestBody) "topic" = Return topic /\
    truthy topic = true /\
    configured (Deno_env_get env "youtube_api_key") = Some apiKey /\
    configured (Deno_env_get env "LOVABLE_API_KEY") = Some lovableKey /\
    ai_fetch env lovableKey (toString topic) = Return aiResponse.

(** The provider lists [items] for a search: both of its requests succeed,
    the first listing holds at least one id, and [items] is the details
    listing of those ids. *)
Definition details_listing (env : Env) (at_ : site) (query apiKey : string)
           (maxResults : nat) (items : list Item.t) : Prop :=
  exists searchResponse ids detailsResponse,
    search_fetch env at_ query apiKey maxResults = Return searchResponse /\
    Fetch.ok searchResponse = true /\
    Fetch.json searchResponse = Return (Some ids) /\
    String.concat "," ids <> "" /\
    videos_fetch env at_ (String.concat "," ids) apiKey = Return detailsResponse /\
    Fetch.ok detailsResponse = true /\
    Fetch.json detailsResponse = Return (Some items).


(** * Concrete inputs

    The environments, requests and items at which the statements below are
    evaluated. *)

(** The item of the counterexample to the specification's formula: no
    views, 150 likes, published at the instant it is scored. *)
Definition item_150_likes : Item.t :=
  {| Item.id := "v1";
     Item.snippet_title := "Cells";
     Item.snippet_channelTitle := "Biology";
     Item.snippet_publishedAt := "1970-01-01T00:00:00Z";
     Item.publishedAt_time := 0;
     Item.contentDetails_duration := "PT9M";
     Item.statistics_viewCount := Some 0;
     Item.statistics_likeCount := Some 150 |}.

(** Three items of a details listing, ten days old when scored. *)
Definition ten_days : Z := 10 * msPerDay.

Definition item_popular : Item.t :=
  {| Item.id := "a";
     Item.snippet_title := "Photosynthesis in 10 minutes";
     Item.snippet_channelTitle := "Science Hub";
     Item.snippet_publishedAt := "1970-01-01T00:00:00Z";
     Item.publishedAt_time := 0;
     Item.contentDetails_duration := "PT10M";
     Item.statistics_viewCount := Some 1450000;
     Item.statistics_likeCount := Some 2000 |}.

Definition item_modest : Item.t :=
  {| Item.id := "b";
     Item.snippet_title := "Light reactions";
     Item.snippet_channelTitle := "Bio Class";
     Item.snippet_publishedAt := "1970-01-01T00:00:00Z";
     Item.publishedAt_time := 0;
     Item.contentDetails_duration := "PT7M";
     Item.statistics_viewCount := Some 40000;
     Item.statistics_likeCount := Some 1000 |}.

Definition item_unrated : Item.t :=
  {| Item.id := "c";
     Item.snippet_title := "Calvin cycle";
     Item.snippet_channelTitle := "Bio Class";
     Item.snippet_publishedAt := "1970-01-01T00:00:00Z";
     Item.publishedAt_time := 0;
     Item.contentDetails_duration := "PT12M";
     Item.statistics_viewCount := Some 999;
     Item.statistics_likeCount := None |}.

(** The same items scored, in the order of the listing: the first two are
    not in the order of their scores. *)
Definition scored_listing : list YouTubeVideo.t :=
  [ scoreItem ten_days item_modest;
    scoreItem ten_days item_popular;
    scoreItem ten_days item_unrated ].

(** A reply of the generative gateway with the given status whose first
    choice carries the given text. *)
Definition gateway_reply (status : Z) (text : string) : result (Fetch.Response json) :=
  Return
    (Fetch.mk status
       (Return
          (JObj [("choices", JArr [JObj [("message", JObj [("content", JStr text)])]])]))).

(** A provider that answers the main query with the given ids, the branch
    of plan index 0 with two ids, fails the branch of index 1 with status
    403 and has nothing for the branches after it. *)
Definition provider_search (mainIds : list string) (at_ : site)
  : result (Fetch.Response (option (list string))) :=
  match at_ with
  | MainQuery => Return (Fetch.mk 200 (Return (Some mainIds)))
  | SubtaskQuery 0 => Return (Fetch.mk 200 (Return (Some ["b"; "a"])))
  | SubtaskQuery 1 => Return (Fetch.mk 403 (Return None))
  | SubtaskQuery _ => Return (Fetch.mk 200 (Return (Some [])))
  end.

Definition provider_videos (at_ : site) : result (Fetch.Response (option (list Item.t))) :=
  match at_ with
  | MainQuery => Return (Fetch.mk 200 (Return (Some [item_modest; item_popular; item_unrated])))
  | SubtaskQuery _ => Return (Fetch.mk 200 (Return (Some [item_modest; item_popular])))
  end.

(** An environment with both keys configured, a gateway answering with the
    given status and text, the given [JSON.parse], and the provider above. *)
Definition world (aiStatus : Z) (aiText : string) (parse : string -> result json)
           (mainIds : list string) : Env :=
  {| Deno_env_get :=
       fun name =>
         if String.eqb name "youtube_api_key" then Some "yt-key"
         else if String.eqb name "LOVABLE_API_KEY" then Some "ai-key"
         else None;
     ai_fetch := fun _ _ => gateway_reply aiStatus aiText;
     JSON_parse := parse;
     search_fetch := fun at_ _ _ _ => provider_search mainIds at_;
     videos_fetch := fun at_ _ _ => provider_videos at_;
     Date_now := fun _ _ => ten_days |}.

(** The JSON text of a value whose strings need no escape, as the gateway
    would send it. *)
Fixpoint json_text (j : json) : string :=
  match j with
  | JNull => "null"
  | JBool true => "true"
  | JBool false => "false"
  | JNum n => showZ n
  | JStr s => dquote ++ s ++ dquote
  | JArr items => "[" ++ String.concat "," (map json_text items) ++ "]"
  | JObj fields =>
      "{" ++ String.concat ","
               (map (fun field => let '(k, v) := field in
                                  dquote ++ k ++ dquote ++ ":" ++ json_text v)
                    fields)
          ++ "}"
  end.

(** The same text inside the code fence generative services like to add. *)
Definition newline : string := String (ascii_of_nat 10) EmptyString.

Definition fenced (text : string) : string :=
  "```json" ++ newline ++ text ++ newline ++ "```".

(** A [JSON.parse] that rejects every text. *)
Definition parse_nothing (text : string) : result json :=
  Throw (SyntaxError "Unexpected token").

(** A [JSON.parse] that knows the text of one value and rejects the rest. *)
Definition parse_only (j : json) (text : string) : result json :=
  if String.eqb text (json_text j) then Return j else Throw (SyntaxError "Unexpected token").

(** A plan with a main query and an empty list of subtasks. *)
Definition plan_without_subtasks : json :=
  JObj [("subtasks", JArr []); ("mainSearchQuery", JStr "photosynthesis explained")].

(** The gateway's text is not JSON: the fallback plan is used. *)
Definition world_fallback : Env :=
  world 200 "Sorry, I cannot help with that." parse_nothing ["b"; "a"; "c"].

(** The gateway's text is the JSON of the plan without subtasks. *)
Definition world_empty_plan : Env :=
  world 200 (json_text plan_without_subtasks) (parse_only plan_without_subtasks)
        ["b"; "a"; "c"].

(** The main query finds nothing. *)
Definition world_no_main : Env :=
  world 200 "Sorry, I cannot help with that." parse_nothing [].

Definition post (body : json) : Request.t :=
  {| Request.method := "POST"; Request.json := Return body |}.

Definition request_photosynthesis : Request.t :=
  post (JObj [("topic", JStr "Photosynthesis")]).




(** A plan of seven subtasks, sent inside a code fence. *)
Definition seven_subtasks : list json :=
  map (fun n => JObj [("title", JStr ("Step " ++ showZ n)); ("searchQuery", JStr "cells")])
      [1; 2; 3; 4; 5; 6; 7].

Definition plan_of_seven : json :=
  JObj [("subtasks", JArr seven_subtasks); ("mainSearchQuery", JStr "cells explained")].

Definition world_long_plan : Env :=
  world 200 (fenced (json_text plan_of_seven)) (parse_only plan_of_seven) ["b"; "a"; "c"].

(** A plan whose second subtask is [null]. *)
Definition plan_with_null : json :=
  JObj [("subtasks",
         JArr [JObj [("title", JStr "Cells"); ("searchQuery", JStr "cells")]; JNull]);
        ("mainSearchQuery", JStr "cells explained")].

Definition world_plan_with_null : Env :=
  world 200 (json_text plan_with_null) (parse_only plan_with_null) ["b"; "a"; "c"].



(** The provider refuses every search. *)
Definition world_search_refused : Env :=
  {| Deno_env_get := Deno_env_get world_fallback;
     ai_fetch := ai_fetch world_fallback;
     JSON_parse := parse_nothing;
     search_fetch := fun _ _ _ _ => Return (Fetch.mk 403 (Return None));
     videos_fetch := videos_fetch world_fallback;
     Date_now := Date_now world_fallback |}.

(** Counts and time stamps on which the score is compared with the same
    expression run on the kernel's floats: raw scores next to a half, the
    counterexample to the specification's formula, a publication in the
    future, the ends of the range, and items of all ages. *)
Definition sample_statistics : list (Z * Z * Z * Z) :=
  [ (4683, 0, 0, 201600000);
    (0, 150, 0, 0);
    (23395171, 262, 1600000000000, 1762000000000);
    (1450000, 2000, 0, 864000000);
    (40000, 1000, 0, 864000000);
    (999, 0, 0, 864000000);
    (1, 0, 0, 8640000000000);
    (7, 3, 1762000000000, 0);
    (123456789, 98, 1234567890123, 1762000123456);
    (100001, 0, 0, 86400001);
    (100000, 0, 0, 86400001);
    (3, 0, 0, 259200000);
    (1000003, 17, 0, 777777777);
    (0, 0, 0, 0);
    (9007199254740991, 1, 0, 3);
    (1160, 1464, 1446403749906, 1519398647635);
    (4197398509, 2, 1650440553157, 1724310809851);
    (1375, 2414, 1004255501135, 1064470850086);
    (4594695265, 0, 1247661473341, 1319293025118);
    (830817, 17095, 1314066607032, 1402734563411);
    (948381, 15687, 1025283651947, 1093725428347);
    (705788, 0, 1096228058926, 1157343632000);
    (857, 0, 1288463087613, 1326837077761);
    (938, 0, 1248403294468, 1270660634272);
    (797591562, 0, 1366670000865, 1386772909176);
    (7434975989, 15411, 1475267693174, 1571256954447);
    (453768, 0, 1081873237807, 1084298683097);
    (7787110432, 3, 1134786183190, 1230902481347);
    (25445, 11428, 1295981795410, 1366350934528);
    (425, 14108, 1342632347629, 1371388627587) ].

(** View counts on which [double_div] is compared with binary64 division:
    exact quotients, decimal ties on both sides, and the ends of the range. *)
Definition sample_counts : list Z :=
  [ 1000; 1001; 1005; 1050; 1150; 1250; 1450; 8350; 12345; 999949; 999950; 999999;
    1000000; 1050000; 1150000; 1250000; 1350000; 1450000; 999999999; 123456789012;
    4503599627370497; 9007199254740991 ].

(** * Properties *)

(** ** Rounding to the nearest double *)

Section RoundingFacts.

Local Open Scope Q_scope.

Lemma round_to_even_comp (x y : Q) : x == y -> round_to_even x = round_to_even y.
Proof.
  intros H. unfold round_to_even. rewrite (Qfloor_comp x y H).
  assert (E : x - inject_Z (Qfloor y) == y - inject_Z (Qfloor y)) by (rewrite H; reflexivity).
  rewrite (Qcompare_comp _ _ E (1 # 2) (1 # 2) (Qeq_refl _)). reflexivity.
Qed.

Lemma round_to_even_near (x : Q) :
  inject_Z (round_to_even x) - (1 # 2) <= x /\ x <= inject_Z (round_to_even x) + (1 # 2).
Proof.
  unfold round_to_even.
  pose proof (Qfloor_le x) as Hlo. pose proof (Qlt_floor x) as Hhi.
  rewrite inject_Z_plus in Hhi. change (inject_Z 1) with 1 in Hhi.
  destruct (Qcompare_spec (x - inject_Z (Qfloor x)) (1 # 2)) as [E | E | E].
  - destruct (Z.even (Qfloor x)); rewrite ?inject_Z_plus; change (inject_Z 1) with 1;
      split; lra.
  - split; lra.
  - rewrite inject_Z_plus. change (inject_Z 1) with 1. split; lra.
Qed.

Lemma round_to_even_mono (x y : Q) : x <= y -> (round_to_even x <= round_to_even y)%Z.
Proof.
  intros Hxy. destruct (Z.le_gt_cases (round_to_even x) (round_to_even y)) as [| Hgt];
    [assumption | exfalso].
  pose proof (round_to_even_near x) as [Hx _].
  pose proof (round_to_even_near y) as [_ Hy].
  assert (Hstep : inject_Z (round_to_even y) + 1 <= inject_Z (round_to_even x)).
  { change 1 with (inject_Z 1). rewrite <- inject_Z_plus, <- Zle_Qle. lia. }
  assert (E : x == y) by lra.
  rewrite (round_to_even_comp x y E) in Hgt. lia.
Qed.

Lemma round_to_even_Z (x : Q) (n : Z) : x == inject_Z n -> round_to_even x = n.
Proof.
  intros H. rewrite (round_to_even_comp _ _ H). unfold round_to_even.
  rewrite Qfloor_Z.
  destruct (Qcompare_spec (inject_Z n - inject_Z n) (1 # 2)) as [E | E | E];
    [exfalso; lra | reflexivity | exfalso; lra].
Qed.

Lemma pow2_pos (e : Z) : 0 < 2 ^ e.
Proof. apply Qpower_0_lt. reflexivity. Qed.

Lemma pow2_plus (a b : Z) : 2 ^ (a + b) == 2 ^ a * 2 ^ b.
Proof. apply Qpower_plus. discriminate. Qed.

Lemma pow2_le (a b : Z) : (a <= b)%Z -> 2 ^ a <= 2 ^ b.
Proof. intros H. apply Qpower_le_compat_l; [exact H | discriminate]. Qed.

Lemma pow2_Z (n : Z) : (0 <= n)%Z -> 2 ^ n == inject_Z (2 ^ n).
Proof. intros H. rewrite Zpower_Qpower by exact H. reflexivity. Qed.

(** [ilog2] is the binary exponent. *)
Lemma ilog2_spec (x : Q) : 0 < x -> 2 ^ ilog2 x <= x /\ x < 2 ^ (ilog2 x + 1).
Proof.
  intros Hx. destruct x as [p q]. unfold ilog2. cbn [Qnum Qden].
  assert (Hp : (0 < p)%Z) by (unfold Qlt in Hx; simpl in Hx; lia).
  set (lp := Z.log2 p). set (lq := Z.log2 (Z.pos q)).
  pose proof (Z.log2_spec p Hp) as [Hp1 Hp2]. fold lp in Hp1, Hp2.
  pose proof (Z.log2_spec (Z.pos q) ltac:(lia)) as [Hq1 Hq2]. fold lq in Hq1, Hq2.
  pose proof (Z.log2_nonneg p) as Hlp. fold lp in Hlp.
  pose proof (Z.log2_nonneg (Z.pos q)) as Hlq. fold lq in Hlq.
  assert (Hxq : p # q == inject_Z p / inject_Z (Z.pos q)) by apply Qmake_Qdiv.
  assert (Hqpos : 0 < inject_Z (Z.pos q)) by (unfold Qlt; simpl; lia).
  assert (Hppos : 0 < inject_Z p) by (unfold Qlt; simpl; lia).
  assert (Hup : p # q < 2 ^ (lp - lq + 1)).
  { replace (lp - lq + 1)%Z with ((lp + 1) + - lq)%Z by lia.
    rewrite pow2_plus, Qpower_opp, (pow2_Z (lp + 1)), (pow2_Z lq), Hxq by lia.
    assert (A : inject_Z p < inject_Z (2 ^ (lp + 1))).
    { rewrite <- Zlt_Qlt. replace (lp + 1)%Z with (Z.succ lp) by lia. exact Hp2. }
    assert (B : inject_Z (2 ^ lq) <= inject_Z (Z.pos q)) by (rewrite <- Zle_Qle; exact Hq1).
    assert (B0 : 0 < inject_Z (2 ^ lq)).
    { change 0 with (inject_Z 0). rewrite <- Zlt_Qlt. apply Z.pow_pos_nonneg; lia. }
    apply Qlt_shift_div_r; [exact Hqpos |].
    apply Qlt_le_trans with (inject_Z (2 ^ (lp + 1)) * / inject_Z (2 ^ lq) * inject_Z (2 ^ lq)).
    - setoid_replace (inject_Z (2 ^ (lp + 1)) * / inject_Z (2 ^ lq) * inject_Z (2 ^ lq))
        with (inject_Z (2 ^ (lp + 1))) by (field; lra).
      exact A.
    - apply Qmult_le_l; [| exact B].
      apply Qmult_lt_0_compat; [lra | apply Qinv_lt_0_compat, B0]. }
  assert (Hdown : 2 ^ (lp - lq - 1) <= p # q).
  { replace (lp - lq - 1)%Z with (lp + - (lq + 1))%Z by lia.
    rewrite pow2_plus, Qpower_opp, (pow2_Z lp), (pow2_Z (lq + 1)), Hxq by lia.
    assert (A : inject_Z (2 ^ lp) <= inject_Z p) by (rewrite <- Zle_Qle; exact Hp1).
    assert (B : inject_Z (Z.pos q) <= inject_Z (2 ^ (lq + 1))).
    { rewrite <- Zle_Qle. replace (lq + 1)%Z with (Z.succ lq) by lia. lia. }
    assert (A0 : 0 < inject_Z (2 ^ lp)).
    { change 0 with (inject_Z 0). rewrite <- Zlt_Qlt. apply Z.pow_pos_nonneg; lia. }
    assert (B0 : 0 < inject_Z (2 ^ (lq + 1))) by lra.
    apply Qle_shift_div_l; [exact Hqpos |].
    apply Qle_trans with (inject_Z (2 ^ lp) * / inject_Z (2 ^ (lq + 1)) * inject_Z (2 ^ (lq + 1))).
    - apply Qmult_le_l; [| exact B].
      apply Qmult_lt_0_compat; [exact A0 | apply Qinv_lt_0_compat, B0].
    - setoid_replace (inject_Z (2 ^ lp) * / inject_Z (2 ^ (lq + 1)) * inject_Z (2 ^ (lq + 1)))
        with (inject_Z (2 ^ lp)) by (field; lra).
      exact A. }
  destruct (Qle_bool (2 ^ (lp - lq)) (p # q)) eqn:E.
  - apply Qle_bool_iff in E. split; assumption.
  - replace (lp - lq - 1 + 1)%Z with (lp - lq)%Z by lia. split; [exact Hdown |].
    apply Qnot_le_lt. intros H. apply Qle_bool_iff in H. congruence.
Qed.

Lemma ilog2_mono (x y : Q) : 0 < x -> x <= y -> (ilog2 x <= ilog2 y)%Z.
Proof.
  intros Hx Hxy.
  destruct (Z.le_gt_cases (ilog2 x) (ilog2 y)) as [| Hgt]; [assumption | exfalso].
  destruct (ilog2_spec x Hx) as [Hx1 _].
  destruct (ilog2_spec y ltac:(lra)) as [_ Hy2].
  pose proof (pow2_le (ilog2 y + 1) (ilog2 x) ltac:(lia)). lra.
Qed.

Lemma binary64_pos_nonneg (x : Q) : 0 < x -> 0 <= binary64_pos x.
Proof.
  intros Hx. unfold binary64_pos.
  set (s := (52 - Z.max (ilog2 x) (-1022))%Z).
  apply Qmult_le_0_compat; [| apply Qlt_le_weak, pow2_pos].
  change 0 with (inject_Z 0). rewrite <- Zle_Qle.
  rewrite <- (round_to_even_Z 0 0 (Qeq_refl _)). apply round_to_even_mono.
  apply Qmult_le_0_compat; [lra | apply Qlt_le_weak, pow2_pos].
Qed.

(** Rounding keeps the order.  Within one binade it is the rounding to a
    multiple of one unit; across binades the power of two between the two
    arguments, itself a double, separates the results. *)
Lemma binary64_pos_mono (x y : Q) : 0 < x -> x <= y -> binary64_pos x <= binary64_pos y.
Proof.
  intros Hx Hxy. assert (Hy : 0 < y) by lra.
  pose proof (ilog2_mono x y Hx Hxy) as He.
  unfold binary64_pos.
  set (ex := Z.max (ilog2 x) (-1022)). set (ey := Z.max (ilog2 y) (-1022)).
  assert (Hle : (ex <= ey)%Z) by (unfold ex, ey; lia).
  destruct (Z.eq_dec ex ey) as [E | Hne].
  - rewrite E. apply Qmult_le_compat_r; [| apply Qlt_le_weak, pow2_pos].
    rewrite <- Zle_Qle. apply round_to_even_mono.
    apply Qmult_le_compat_r; [exact Hxy | apply Qlt_le_weak, pow2_pos].
  - assert (Hey : ey = ilog2 y) by (unfold ex, ey in *; lia).
    assert (Hex : (ilog2 x <= ex)%Z) by (unfold ex; lia).
    destruct (ilog2_spec x Hx) as [_ Hx2]. destruct (ilog2_spec y Hy) as [Hy1 _].
    rewrite <- Hey in Hy1.
    apply Qle_trans with (2 ^ (ex + 1)); [| apply Qle_trans with (2 ^ ey)].
    + assert (Hr : (round_to_even (x * 2 ^ (52 - ex)) <= 2 ^ 53)%Z).
      { rewrite <- (round_to_even_Z (inject_Z (2 ^ 53)) (2 ^ 53) (Qeq_refl _)).
        apply round_to_even_mono.
        rewrite <- (pow2_Z 53) by lia. replace 53%Z with ((ex + 1) + (52 - ex))%Z at 1 by lia.
        rewrite pow2_plus.
        apply Qmult_le_compat_r; [| apply Qlt_le_weak, pow2_pos].
        apply Qle_trans with (2 ^ (ilog2 x + 1)); [lra | apply pow2_le; lia]. }
      replace (ex + 1)%Z with (53 + - (52 - ex))%Z by lia.
      rewrite (pow2_plus 53), (pow2_Z 53) by lia.
      apply Qmult_le_compat_r; [| apply Qlt_le_weak, pow2_pos].
      rewrite <- Zle_Qle. exact Hr.
    + apply pow2_le. lia.
    + assert (Hr : (2 ^ 52 <= round_to_even (y * 2 ^ (52 - ey)))%Z).
      { rewrite <- (round_to_even_Z (inject_Z (2 ^ 52)) (2 ^ 52) (Qeq_refl _)).
        apply round_to_even_mono.
        rewrite <- (pow2_Z 52) by lia. replace 52%Z with (ey + (52 - ey))%Z at 1 by lia.
        rewrite pow2_plus.
        apply Qmult_le_compat_r; [exact Hy1 | apply Qlt_le_weak, pow2_pos]. }
      replace ey with (52 + - (52 - ey))%Z at 1 by lia.
      rewrite (pow2_plus 52), (pow2_Z 52) by lia.
      apply Qmult_le_compat_r; [| apply Qlt_le_weak, pow2_pos].
      rewrite <- Zle_Qle. exact Hr.
Qed.

Lemma binary64_mono (x y : Q) : x <= y -> binary64 x <= binary64 y.
Proof.
  intros Hxy. destruct x as [[| p | p] qx], y as [[| p' | p'] qy]; unfold binary64; cbn [Qnum];
    try (exfalso; unfold Qle in Hxy; simpl in Hxy; lia).
  - apply Qle_refl.
  - apply binary64_pos_nonneg. reflexivity.
  - apply binary64_pos_mono; [reflexivity | exact Hxy].
  - assert (H : 0 <= binary64_pos (- (Z.neg p # qx))) by (apply binary64_pos_nonneg; reflexivity).
    lra.
  - assert (H : 0 <= binary64_pos (- (Z.neg p # qx))) by (apply binary64_pos_nonneg; reflexivity).
    assert (H' : 0 <= binary64_pos (Z.pos p' # qy)) by (apply binary64_pos_nonneg; reflexivity).
    lra.
  - assert (H : binary64_pos (- (Z.neg p' # qy)) <= binary64_pos (- (Z.neg p # qx))).
    { apply binary64_pos_mono; [reflexivity | lra]. }
    lra.
Qed.

Lemma binary64_comp (x y : Q) : x == y -> binary64 x == binary64 y.
Proof.
  intros H. apply Qle_antisym; apply binary64_mono; rewrite H; apply Qle_refl.
Qed.

End RoundingFacts.

(** From here on the rounding is used through these lemmas and by
    evaluation only. *)
#[global] Opaque binary64.

(** ** The engagement score *)

Section ScoreFacts.

Local Open Scope Q_scope.


(** [Math.round] returns the integer [r] with [r - 1/2 <= x < r + 1/2]. *)
Lemma Math_round_nearest (x : Q) :
  inject_Z (Math_round x) - (1 # 2) <= x /\ x < inject_Z (Math_round x) + (1 # 2).
Proof.
  unfold Math_round.
  pose proof (Qfloor_le (x + (1 # 2))) as Hlo.
  pose proof (Qlt_floor (x + (1 # 2))) as Hhi.
  rewrite inject_Z_plus in Hhi. change (inject_Z 1) with 1 in Hhi.
  split; lra.
Qed.










(** The clamp of a quotient by 1000 is the quotient of the clamped
    integer. *)
Lemma clamp_of_thousandths (r : Z) :
  Qmin 100 (Qmax 1 (binary64 (inject_Z r / 1000)))
  == binary64 (inject_Z (Z.min 100000 (Z.max 1000 r)) / 1000).
Proof.
  assert (Hquot : forall a b : Z, (a <= b)%Z ->
                    binary64 (inject_Z a / 1000) <= binary64 (inject_Z b / 1000)).
  { intros a b Hab. apply binary64_mono. unfold Qdiv.
    apply Qmult_le_compat_r; [rewrite <- Zle_Qle; exact Hab | discriminate]. }
  assert (H1 : binary64 (inject_Z 1000 / 1000) == 1) by (vm_compute; reflexivity).
  assert (H100 : binary64 (inject_Z 100000 / 1000) == 100) by (vm_compute; reflexivity).
  destruct (Z.le_gt_cases r 1000) as [Hsmall | Hbig].
  - rewrite Z.max_l, Z.min_r by lia. rewrite H1.
    pose proof (Hquot r 1000%Z Hsmall) as Hle. rewrite H1 in Hle.
    rewrite (Q.max_l 1 _ Hle). apply Q.min_r. discriminate.
  - rewrite Z.max_r by lia.
    pose proof (Hquot 1000%Z r ltac:(lia)) as Hge. rewrite H1 in Hge.
    rewrite (Q.max_r 1 _ Hge).
    destruct (Z.le_gt_cases r 100000) as [Hmid | Hhuge].
    + rewrite Z.min_r by lia.
      pose proof (Hquot r 100000%Z Hmid) as Hle. rewrite H100 in Hle.
      apply Q.min_r. exact Hle.
    + rewrite Z.min_l by lia. rewrite H100.
      pose proof (Hquot 100000%Z r ltac:(lia)) as Hge'. rewrite H100 in Hge'.
      apply Q.min_l. exact Hge'.
Qed.

End ScoreFacts.

(** The scored candidate of an item keeps the score of its statistics. *)
Lemma scoreItem_engagementScore (now : Z) (item : Item.t) :
  YouTubeVideo.engagementScore (scoreItem now item)
  = engagementScore (viewCountOf item) (likeCountOf item) (Item.publishedAt_time item) now.
Proof. reflexivity. Qed.




(** C1, as the source has it.  For every item the provider returns, the
    score of the candidate is [clamp(round(rawScore) / 1000, 1, 100)]: the
    raw score is rounded to the nearest integer [r] first and [r] is then
    divided by 1000, so the score is the double nearest to a number of
    thousandths, cut to [1, 100].  The raw score is
    [viewCount / days * 0.5 + likeCount * 10 + (viewCount > 100000 ? 50 : 0)]
    with [days = max(1, (now - publishedAt) / 86400000)], each operation
    rounded to the nearest double in the order of the source. *)
Theorem engagementScore_rounds_before_scaling (now : Z) (item : Item.t) :
  let viewCount :=
    binary64 (inject_Z (match Item.statistics_viewCount item with
                        | Some n => n
                        | None => 0
                        end)) in
  let likeCount :=
    binary64 (inject_Z (match Item.statistics_likeCount item with
                        | Some n => n
                        | None => 0
                        end)) in
  let elapsed :=
    binary64 (binary64 (inject_Z now) - binary64 (inject_Z (Item.publishedAt_time item)))%Q in
  let days := Qmax 1 (binary64 (elapsed / inject_Z 86400000)) in
  let raw :=
    binary64
      (binary64 (binary64 (binary64 (viewCount / days) * (1 # 2)) + binary64 (likeCount * 10))
       + (if Qle_bool viewCount 100000 then 0 else 50))%Q in
  exists r : Z,
    (inject_Z r - (1 # 2) <= raw)%Q /\ (raw < inject_Z r + (1 # 2))%Q /\
    YouTubeVideo.engagementScore (scoreItem now item)
    = Qmin 100 (Qmax 1 (binary64 (inject_Z r / 1000))) /\
    (YouTubeVideo.engagementScore (scoreItem now item)
     == binary64 (inject_Z (Z.min 100000 (Z.max 1000 r)) / 1000))%Q.
Proof.
  intros viewCount likeCount elapsed days raw.
  assert (Hraw : raw = rawScore (double_of_Z (viewCountOf item)) (double_of_Z (likeCountOf item))
                         (daysSincePublish (double_of_Z now)
                                           (double_of_Z (Item.publishedAt_time item)))).
  { cbv [rawScore daysSincePublish literal sub div mul add gt finite_doubles].
    fold viewCount. unfold raw, days, elapsed, viewCount, likeCount, double_of_Z,
                    viewCountOf, likeCountOf.
    destruct (Qle_bool _ 100000); reflexivity. }
  exists (Math_round raw).
  destruct (Math_round_nearest raw) as [Hlo Hhi].
  split; [exact Hlo |]. split; [exact Hhi |].
  assert (Hscore : YouTubeVideo.engagementScore (scoreItem now item)
                   = Qmin 100 (Qmax 1 (binary64 (inject_Z (Math_round raw) / 1000)))).
  { rewrite scoreItem_engagementScore, Hraw. reflexivity. }
  split; [exact Hscore |].
  rewrite Hscore. apply clamp_of_thousandths.
Qed.

(** C1 as the specification words it does not hold.  With no views and 150
    likes the raw score is 1500; the source rounds it (1500) and divides by
    1000, giving 1.5, where [clamp(round(rawScore / 1000), 1, 100)] is 2. *)
Lemma engagementScore_is_not_round_of_scaled :
  (rawScore (double_of_Z 0) (double_of_Z 150) (daysSincePublish (double_of_Z 0) (double_of_Z 0))
   == 1500)%Q /\
  (YouTubeVideo.engagementScore (scoreItem 0 item_150_likes) == 3 # 2)%Q /\
  (spec_engagementScore 0 150 0 0 == 2)%Q /\
  ~ (YouTubeVideo.engagementScore (scoreItem 0 item_150_likes)
     == spec_engagementScore 0 150 0 0)%Q.
Proof.
  repeat split; try (vm_compute; reflexivity).
  vm_compute. discriminate.
Qed.

(** The score is that of the same expression run on the kernel's binary64
    floats, on every sample. *)
Example engagementScore_is_binary64 :
  forallb score_agrees_with_binary64 sample_statistics = true.
Proof. vm_compute. reflexivity. Qed.

(** The rounding of the doubles decides the result.  With 4683 views and no
    likes, 201600000 ms after publication, the exact raw score is 1003.5,
    which would round to 1004; the quotient by the days is rounded below
    it, the raw score of the source is the double just under 1003.5, and
    the score is 1.003. *)
Example double_rounding_decides :
  (engagementScore 4683 0 0 201600000 == binary64 (1003 # 1000))%Q /\
  ~ (engagementScore 4683 0 0 201600000 == binary64 (1004 # 1000))%Q /\
  Math_round (inject_Z 4683 / (inject_Z 201600000 / inject_Z msPerDay) * (1 # 2)) = 1004.
Proof.
  split; [vm_compute; reflexivity |]. split; [vm_compute; discriminate |].
  vm_compute. reflexivity.
Qed.

(** ** Arrays and promises *)

Section ArrayFacts.
Context {A B : Type}.

Lemma mapi_from_length (f : nat -> A -> B) (l : list A) (start : nat) :
  List.length (mapi_from start f l) = List.length l.
Proof.
  revert start. induction l as [| x rest IH]; intros start; simpl;
    [reflexivity | rewrite IH; reflexivity].
Qed.

Lemma mapi_from_nth_error (f : nat -> A -> B) (l : list A) (start i : nat) :
  nth_error (mapi_from start f l) i = option_map (f (start + i)%nat) (nth_error l i).
Proof.
  revert start i. induction l as [| x rest IH]; intros start [| i]; simpl;
    try reflexivity.
  - rewrite Nat.add_0_r. reflexivity.
  - rewrite IH. replace (S start + i)%nat with (start + S i)%nat by lia. reflexivity.
Qed.

Lemma mapi_nth_error (f : nat -> A -> B) (l : list A) (i : nat) :
  nth_error (mapi f l) i = option_map (f i) (nth_error l i).
Proof. unfold mapi. rewrite mapi_from_nth_error. reflexivity. Qed.

Lemma mapi_length (f : nat -> A -> B) (l : list A) : List.length (mapi f l) = List.length l.
Proof. apply mapi_from_length. Qed.

Lemma mapi_from_In (f : nat -> A -> B) (l : list A) (start : nat) (y : B) :
  In y (mapi_from start f l) -> exists i x, In x l /\ y = f i x.
Proof.
  revert start. induction l as [| x rest IH]; intros start; simpl; [intros [] |].
  intros [<- | Hin].
  - exists start, x. split; [left |]; reflexivity.
  - destruct (IH _ Hin) as (i & x' & Hx' & ->). exists i, x'. split; [right |]; auto.
Qed.

End ArrayFacts.

Section PromiseFacts.
Context {A : Type}.

(** When [Promise.all] resolves, every branch resolved, and the results are
    those of the branches, index by index. *)
Lemma Promise_all_Return (branches : list (result A)) (results : list A) :
  Promise_all branches = Return results ->
  List.length results = List.length branches /\
  forall i b, nth_error branches i = Some b ->
              exists r, b = Return r /\ nth_error results i = Some r.
Proof.
  revert results. induction branches as [| b rest IH]; intros results H; simpl in H.
  - injection H as <-. split; [reflexivity |]. intros [| i] b' Hb'; discriminate.
  - destruct b as [a | e]; [| discriminate].
    destruct (Promise_all rest) as [rs | e] eqn:Erest; [| discriminate].
    simpl in H. injection H as <-.
    destruct (IH rs eq_refl) as [Hlen Hnth].
    split; [simpl; rewrite Hlen; reflexivity |].
    intros [| i] b' Hb'; simpl in Hb'.
    + injection Hb' as <-. exists a. split; reflexivity.
    + apply Hnth, Hb'.
Qed.


End PromiseFacts.

Lemma sort_insert_In {A : Type} (after : A -> A -> bool) (a x : A) (sorted : list A) :
  In x (sort_insert after a sorted) <-> x = a \/ In x sorted.
Proof.
  induction sorted as [| h rest IH]; simpl.
  - intuition auto.
  - destruct (after a h); simpl; rewrite ?IH; intuition auto.
Qed.

(** Sorting neither adds nor loses an element. *)
Lemma Array_sort_In {A : Type} (after : A -> A -> bool) (x : A) (l : list A) :
  In x (Array_sort after l) <-> In x l.
Proof.
  induction l as [| a rest IH]; simpl; [reflexivity |].
  rewrite sort_insert_In, IH. intuition auto.
Qed.

Lemma mapi_from_ext {A B : Type} (f g : nat -> A -> B) (l : list A) (start : nat) :
  (forall i x, f i x = g i x) -> mapi_from start f l = mapi_from start g l.
Proof.
  intros Hfg. revert start. induction l as [| x rest IH]; intros start; simpl;
    [reflexivity | rewrite Hfg, IH; reflexivity].
Qed.

(** ** What searchYouTube resolves to *)

(** The list [searchYouTube] resolves to is the sorted list of the scored
    candidates (no candidate when there is no id or no item). *)
Lemma searchYouTube_sorted (env : Env) (at_ : site) (query apiKey : string)
      (maxResults : nat) (videos : list YouTubeVideo.t) :
  searchYouTube env at_ query apiKey maxResults = Return videos ->
  exists candidates,
    videos = Array_sort sorts_after candidates /\
    forall v, In v candidates -> exists i item, v = scoreItem (Date_now env at_ i) item.
Proof.
  unfold searchYouTube. intros H.
  destruct (search_fetch env at_ query apiKey maxResults) as [searchResponse | e];
    [| discriminate].
  cbn [bind] in H.
  destruct (negb (Fetch.ok searchResponse)); [discriminate |].
  destruct (Fetch.json searchResponse) as [searchData | e]; [| discriminate].
  cbn [bind] in H.
  destruct (option_map (String.concat ",") searchData) as [[| c ids] |].
  - injection H as <-. exists []. split; [reflexivity | intros v []].
  - destruct (videos_fetch env at_ (String c ids) apiKey) as [detailsResponse | e];
      [| discriminate].
    cbn [bind] in H.
    destruct (negb (Fetch.ok detailsResponse)); [discriminate |].
    destruct (Fetch.json detailsResponse) as [detailsData | e]; [| discriminate].
    cbn [bind] in H. injection H as <-.
    eexists. split; [reflexivity |].
    intros v Hin. destruct detailsData as [items |]; [| destruct Hin].
    destruct (mapi_from_In _ _ _ _ Hin) as (i & item & _ & ->).
    exists i, item. reflexivity.
  - injection H as <-. exists []. split; [reflexivity | intros v []].
Qed.

(** Every video [searchYouTube] resolves to is the scored candidate of an
    item of the details listing. *)
Lemma searchYouTube_scored (env : Env) (at_ : site) (query apiKey : string)
      (maxResults : nat) (videos : list YouTubeVideo.t) (v : YouTubeVideo.t) :
  searchYouTube env at_ query apiKey maxResults = Return videos ->
  In v videos ->
  exists i item, v = scoreItem (Date_now env at_ i) item.
Proof.
  intros H Hin.
  destruct (searchYouTube_sorted env at_ query apiKey maxResults videos H)
    as (candidates & -> & Hscored).
  apply Hscored. apply (Array_sort_In sorts_after). exact Hin.
Qed.

(** ** Selection of the primary video *)

Section Selection.

Local Open Scope Q_scope.

Let score := YouTubeVideo.engagementScore.

Lemma sorts_after_lt (a b : YouTubeVideo.t) :
  sorts_after a b = true <-> score a < score b.
Proof.
  unfold sorts_after, score. rewrite Qlt_alt.
  destruct (YouTubeVideo.engagementScore a ?= YouTubeVideo.engagementScore b);
    split; congruence.
Qed.

Lemma sorts_after_ge (a b : YouTubeVideo.t) :
  sorts_after a b = false <-> score b <= score a.
Proof.
  split; intros H.
  - apply Qnot_lt_le. intros Hlt. apply sorts_after_lt in Hlt. congruence.
  - destruct (sorts_after a b) eqn:E; [| reflexivity].
    apply sorts_after_lt in E. exfalso. exact (Qlt_not_le _ _ E H).
Qed.

(** The head after one insertion: the inserted element unless it must
    follow the old head. *)
Lemma hd_sort_insert (a : YouTubeVideo.t) (sorted : list YouTubeVideo.t) :
  hd_error (sort_insert sorts_after a sorted)
  = match sorted with
    | [] => Some a
    | h :: _ => if sorts_after a h then Some h else Some a
    end.
Proof.
  destruct sorted as [| h rest]; simpl; [reflexivity |].
  destruct (sorts_after a h); reflexivity.
Qed.

(** The head of the sorted candidates is the first candidate, in the order
    given, whose score no candidate exceeds. *)
Lemma hd_sort_first_maximal (candidates : list YouTubeVideo.t) :
  candidates <> [] ->
  exists primary before after,
    hd_error (Array_sort sorts_after candidates) = Some primary /\
    candidates = (before ++ primary :: after)%list /\
    (forall c, In c before -> score c < score primary) /\
    (forall c, In c after -> score c <= score primary).
Proof.
  induction candidates as [| a rest IH]; [congruence |].
  intros _. destruct rest as [| b rest'].
  - exists a, [], []. simpl. repeat split; intros c [].
  - destruct IH as (p & before & after & Hhd & Hsplit & Hbefore & Hafter);
      [discriminate |].
    change (Array_sort sorts_after (a :: b :: rest'))
      with (sort_insert sorts_after a (Array_sort sorts_after (b :: rest'))).
    rewrite hd_sort_insert.
    destruct (Array_sort sorts_after (b :: rest')) as [| h tl] eqn:Esorted;
      [discriminate |].
    simpl in Hhd. injection Hhd as ->.
    destruct (sorts_after a p) eqn:Ecmp.
    + exists p, (a :: before), after. rewrite Hsplit. repeat split.
      * intros c [<- | Hin]; [apply sorts_after_lt, Ecmp | apply Hbefore, Hin].
      * exact Hafter.
    + apply sorts_after_ge in Ecmp.
      exists a, [], (b :: rest'). repeat split; [intros c [] |].
      intros c Hin. rewrite Hsplit in Hin.
      apply Qle_trans with (score p); [| exact Ecmp].
      apply in_app_or in Hin. destruct Hin as [Hin | [<- | Hin]].
      * apply Qlt_le_weak, Hbefore, Hin.
      * apply Qle_refl.
      * apply Hafter, Hin.
Qed.

End Selection.

(** Before the first position of the maximal score every score is
    smaller; from it on none is larger.  For the scored items of a listing
    the position is an index of the listing. *)
Lemma hd_sort_mapi (f : nat -> Item.t -> YouTubeVideo.t) (items : list Item.t)
      (primary : YouTubeVideo.t) :
  hd_error (Array_sort sorts_after (mapi f items)) = Some primary ->
  exists i item,
    nth_error items i = Some item /\
    primary = f i item /\
    (forall j other,
        nth_error items j = Some other ->
        (YouTubeVideo.engagementScore (f j other) <= YouTubeVideo.engagementScore primary)%Q) /\
    (forall j other,
        nth_error items j = Some other ->
        (j < i)%nat ->
        (YouTubeVideo.engagementScore (f j other) < YouTubeVideo.engagementScore primary)%Q).
Proof.
  intros Hhd.
  assert (Hne : mapi f items <> []).
  { intros E. rewrite E in Hhd. discriminate. }
  destruct (hd_sort_first_maximal (mapi f items) Hne)
    as (p & before & after & Hhd' & Hsplit & Hbefore & Hafter).
  rewrite Hhd in Hhd'. injection Hhd' as <-.
  assert (Hi : nth_error (mapi f items) (List.length before) = Some primary).
  { rewrite Hsplit, nth_error_app2 by lia. rewrite Nat.sub_diag. reflexivity. }
  rewrite mapi_nth_error in Hi.
  destruct (nth_error items (List.length before)) as [item |] eqn:Hitem; [| discriminate].
  cbn [option_map] in Hi. injection Hi as Hp.
  exists (List.length before), item.
  split; [exact Hitem |]. split; [symmetry; exact Hp |]. split.
  - intros j other Hj.
    assert (Hc : nth_error (mapi f items) j = Some (f j other))
      by (rewrite mapi_nth_error, Hj; reflexivity).
    apply nth_error_In in Hc. rewrite Hsplit in Hc. apply in_app_or in Hc.
    destruct Hc as [Hc | [Hc | Hc]].
    + apply Qlt_le_weak, Hbefore, Hc.
    + rewrite Hc. apply Qle_refl.
    + apply Hafter, Hc.
  - intros j other Hj Hlt.
    assert (Hc : nth_error (mapi f items) j = Some (f j other))
      by (rewrite mapi_nth_error, Hj; reflexivity).
    rewrite Hsplit, nth_error_app1 in Hc by exact Hlt.
    apply Hbefore. apply nth_error_In with j. exact Hc.
Qed.

(** A search that resolves to at least one video went through both
    listings: it resolves to the scored items of the details listing,
    sorted. *)
Lemma searchYouTube_listing (env : Env) (at_ : site) (query apiKey : string)
      (maxResults : nat) (videos : list YouTubeVideo.t) :
  searchYouTube env at_ query apiKey maxResults = Return videos ->
  videos = [] \/
  exists items,
    details_listing env at_ query apiKey maxResults items /\
    videos
    = Array_sort sorts_after (mapi (fun i item => scoreItem (Date_now env at_ i) item) items).
Proof.
  unfold searchYouTube, details_listing. intros H.
  destruct (search_fetch env at_ query apiKey maxResults) as [searchResponse | e] eqn:Hsearch;
    [| discriminate].
  cbn [bind] in H.
  destruct (Fetch.ok searchResponse) eqn:Hok; cbn [negb] in H; [| discriminate].
  destruct (Fetch.json searchResponse) as [searchData | e] eqn:Hjson; [| discriminate].
  cbn [bind] in H.
  destruct searchData as [ids |]; cbn [option_map] in H;
    [| left; injection H as <-; reflexivity].
  destruct (String.concat "," ids) as [| c rest] eqn:Hids;
    [left; injection H as <-; reflexivity |].
  destruct (videos_fetch env at_ (String c rest) apiKey) as [detailsResponse | e] eqn:Hvideos;
    [| discriminate].
  cbn [bind] in H.
  destruct (Fetch.ok detailsResponse) eqn:Hdok; cbn [negb] in H; [| discriminate].
  destruct (Fetch.json detailsResponse) as [[items |] | e] eqn:Hdjson; [| | discriminate];
    cbn [bind] in H; injection H as <-.
  - right. exists items. split; [| reflexivity].
    exists searchResponse, ids, detailsResponse. rewrite Hids.
    split; [reflexivity |]. split; [exact Hok |]. split; [exact Hjson |].
    split; [discriminate |]. split; [exact Hvideos |]. split; [exact Hdok | exact Hdjson].
  - left. reflexivity.
Qed.


(** An element of the scored items is the scored item of an index. *)
Lemma In_mapi_nth_error {A B : Type} (f : nat -> A -> B) (l : list A) (y : B) :
  In y (mapi f l) -> exists i x, nth_error l i = Some x /\ y = f i x.
Proof.
  intros Hin. destruct (In_nth_error _ _ Hin) as [i Hi].
  rewrite mapi_nth_error in Hi.
  destruct (nth_error l i) as [x |] eqn:Hx; [| discriminate].
  cbn [option_map] in Hi. injection Hi as <-. exists i, x. split; [exact Hx | reflexivity].
Qed.

(** ** The stages of the handler *)

Section HandlerFacts.

Variable env : Env.

(** Past the planning stage the response is that of the assembly stage, an
    exception becoming the 500 response of the outer [catch]. *)
Lemma handler_at_assembly (req : Request.t) (topic : value) (apiKey : string)
      (parsedData : json) :
  reaches_assembly env req topic apiKey parsedData ->
  handler env req
  = match assemble env topic apiKey parsedData with
    | Return response => response
    | Throw e => errorResponse e
    end.
Proof.
  intros [Hmethod (requestBody & lovableKey & aiResponse & aiData & content
                   & Hbody & Htopic & Htruthy & Hyt & Hai & Hfetch & Hok & Hjson
                   & Hcontent & ->)].
  unfold handler, handle. rewrite Hmethod, Hbody. cbn [bind].
  rewrite Htopic. cbn [bind]. rewrite Htruthy. cbn [negb].
  rewrite Hyt, Hai, Hfetch. cbn [bind]. rewrite Hok. cbn [negb].
  rewrite Hjson. cbn [bind]. rewrite Hcontent. cbn [bind].
  reflexivity.
Qed.

(** What a resolved assembly stage went through. *)
Lemma assemble_Return (topic : value) (apiKey : string) (parsedData : json)
      (response : Response) :
  assemble env topic apiKey parsedData = Return response ->
  exists mainQuery primaryVideo others subtasks entries,
    mainQueryOf topic parsedData = Return mainQuery /\
    searchYouTube env MainQuery mainQuery apiKey 5 = Return (primaryVideo :: others) /\
    planSubtasks parsedData = Return subtasks /\
    Promise_all (mapi (subtaskBranch env topic apiKey) subtasks) = Return entries /\
    response = successResponse topic primaryVideo entries.
Proof.
  unfold assemble. intros H.
  destruct (mainQueryOf topic parsedData) as [mainQuery | e] eqn:Hquery; [| discriminate].
  cbn [bind] in H.
  destruct (searchYouTube env MainQuery mainQuery apiKey 5) as [[| p others] | e] eqn:Hmain;
    try discriminate.
  cbn [bind hd_error] in H.
  destruct (planSubtasks parsedData) as [subtasks | e] eqn:Hplan; [| discriminate].
  cbn [bind] in H.
  destruct (Promise_all (mapi (subtaskBranch env topic apiKey) subtasks))
    as [entries | e] eqn:Hall; [| discriminate].
  cbn [bind] in H. injection H as <-.
  exists mainQuery, p, others, subtasks, entries. repeat split; assumption.
Qed.

(** A response with a result body comes from a resolved assembly stage. *)
Lemma handler_result_inv (req : Request.t) (st : Z) (d : DiscoveryResult.t) :
  handler env req = {| status := st; body := ResultBody d |} ->
  exists topic apiKey parsedData,
    reaches_assembly env req topic apiKey parsedData /\
    assemble env topic apiKey parsedData = Return {| status := st; body := ResultBody d |}.
Proof.
  unfold handler. destruct (String.eqb (Request.method req) "OPTIONS") eqn:Hmethod;
    [discriminate |].
  destruct (handle env req) as [response | e] eqn:Hhandle; [| discriminate].
  intros ->. unfold handle in Hhandle.
  destruct (Request.json req) as [requestBody | e] eqn:Hbody; [| discriminate].
  cbn [bind] in Hhandle.
  destruct (get (Some requestBody) "topic") as [topic | e] eqn:Htopic; [| discriminate].
  cbn [bind] in Hhandle.
  destruct (truthy topic) eqn:Htruthy; [| discriminate].
  cbn [negb] in Hhandle.
  destruct (configured (Deno_env_get env "youtube_api_key")) as [apiKey |] eqn:Hyt;
    [| discriminate].
  destruct (configured (Deno_env_get env "LOVABLE_API_KEY")) as [lovableKey |] eqn:Hai;
    [| discriminate].
  destruct (ai_fetch env lovableKey (toString topic)) as [aiResponse | e] eqn:Hfetch;
    [| discriminate].
  cbn [bind] in Hhandle.
  destruct (Fetch.ok aiResponse) eqn:Hok; cbn [negb] in Hhandle.
  - destruct (Fetch.json aiResponse) as [aiData | e] eqn:Hjson; [| discriminate].
    cbn [bind] in Hhandle.
    destruct (contentOf aiData) as [content | e] eqn:Hcontent; [| discriminate].
    cbn [bind] in Hhandle.
    exists topic, apiKey, (parsedDataOf env topic content).
    split; [| exact Hhandle].
    split; [exact Hmethod |].
    exists requestBody, lovableKey, aiResponse, aiData, content. repeat split; assumption.
  - destruct (Fetch.status aiResponse =? 429); [discriminate |].
    destruct (Fetch.status aiResponse =? 402); discriminate.
Qed.

End HandlerFacts.

(** Unfolds the two stage predicates at a concrete request and solves them
    by evaluation. *)
Ltac by_evaluation :=
  match goal with
  | |- reaches_assembly _ _ _ _ _ =>
      split; [reflexivity | do 5 eexists; repeat split; reflexivity]
  | |- gateway_answers _ _ _ =>
      split; [reflexivity | do 4 eexists; repeat split; reflexivity]
  | |- lacks_topic _ =>
      split; [reflexivity | do 2 eexists; repeat split; reflexivity]
  end.

(** ** The primary video *)

Section PrimaryFacts.

Variable env : Env.

(** A request reaches the assembly stage in one way. *)
Lemma reaches_assembly_functional (req : Request.t) (topic1 topic2 : value)
      (apiKey1 apiKey2 : string) (parsedData1 parsedData2 : json) :
  reaches_assembly env req topic1 apiKey1 parsedData1 ->
  reaches_assembly env req topic2 apiKey2 parsedData2 ->
  topic1 = topic2 /\ apiKey1 = apiKey2 /\ parsedData1 = parsedData2.
Proof.
  intros [_ (b1 & k1 & r1 & a1 & c1 & Hb1 & Ht1 & _ & Hy1 & Hk1 & Hf1 & _ & Hj1 & Hc1 & ->)]
         [_ (b2 & k2 & r2 & a2 & c2 & Hb2 & Ht2 & _ & Hy2 & Hk2 & Hf2 & _ & Hj2 & Hc2 & ->)].
  rewrite Hb1 in Hb2. injection Hb2 as <-.
  rewrite Ht1 in Ht2. injection Ht2 as <-.
  rewrite Hy1 in Hy2. injection Hy2 as <-.
  rewrite Hk1 in Hk2. injection Hk2 as <-.
  rewrite Hf1 in Hf2. injection Hf2 as <-.
  rewrite Hj1 in Hj2. injection Hj2 as <-.
  rewrite Hc1 in Hc2. injection Hc2 as <-.
  split; [reflexivity | split; reflexivity].
Qed.


(** The result of a success response, read back to the provider's listing
    for the main query: the recommended video is the item at the first
    index of the maximal score. *)
Lemma handler_primary (req : Request.t) (st : Z) (d : DiscoveryResult.t) :
  handler env req = {| status := st; body := ResultBody d |} ->
  exists topic apiKey parsedData mainQuery items i item,
    reaches_assembly env req topic apiKey parsedData /\
    mainQueryOf topic parsedData = Return mainQuery /\
    details_listing env MainQuery mainQuery apiKey 5 items /\
    nth_error items i = Some item /\
    DiscoveryResult.videoId d = Item.id item /\
    DiscoveryResult.title d = Item.snippet_title item /\
    DiscoveryResult.channel d = Item.snippet_channelTitle item /\
    DiscoveryResult.reason d
    = "Best educational video for " ++ dquote ++ toString topic ++ dquote
      ++ " with " ++ formatViewCount (viewCountOf item) ++ " views" /\
    (forall j other,
        nth_error items j = Some other ->
        (YouTubeVideo.engagementScore (scoreItem (Date_now env MainQuery j) other)
         <= YouTubeVideo.engagementScore (scoreItem (Date_now env MainQuery i) item))%Q) /\
    (forall j other,
        nth_error items j = Some other ->
        (j < i)%nat ->
        (YouTubeVideo.engagementScore (scoreItem (Date_now env MainQuery j) other)
         < YouTubeVideo.engagementScore (scoreItem (Date_now env MainQuery i) item))%Q).
Proof.
  intros Hresponse.
  destruct (handler_result_inv env req st d Hresponse)
    as (topic & apiKey & parsedData & Hreach & Hassemble).
  destruct (assemble_Return env _ _ _ _ Hassemble)
    as (mainQuery & primaryVideo & others & subtasks & entries
        & Hquery & Hmain & _ & _ & Hresult).
  injection Hresult as _ Hd. subst d.
  destruct (searchYouTube_listing env MainQuery mainQuery apiKey 5 _ Hmain)
    as [Hnone | (items & Hlisting & Hsorted)]; [discriminate |].
  assert (Hhd : hd_error (Array_sort sorts_after
                            (mapi (fun i item => scoreItem (Date_now env MainQuery i) item)
                                  items))
                = Some primaryVideo) by (rewrite <- Hsorted; reflexivity).
  destruct (hd_sort_mapi _ items primaryVideo Hhd) as (i & item & Hitem & -> & Hmax & Hfirst).
  exists topic, apiKey, parsedData, mainQuery, items, i, item.
  split; [exact Hreach |]. split; [exact Hquery |]. split; [exact Hlisting |].
  split; [exact Hitem |].
  split; [reflexivity |]. split; [reflexivity |]. split; [reflexivity |].
  split; [reflexivity |]. split; [exact Hmax | exact Hfirst].
Qed.

End PrimaryFacts.




(** The selection evaluated on the scored listing. *)
Example primaryVideo_of_listing :
  hd_error (Array_sort sorts_after scored_listing) = Some (scoreItem ten_days item_popular) /\
  map YouTubeVideo.videoId (Array_sort sorts_after scored_listing) = ["a"; "b"; "c"].
Proof. split; vm_compute; reflexivity. Qed.

(** ** Fatal failures and status codes *)

(** C5.  When the request reaches the assembly stage and the search for the
    main query succeeds with no candidate, the response is the 500 error
    response with the message of [NoPrimaryVideoFound]; its body is an error
    body, so no part of a result reaches the caller. *)
Theorem no_main_candidate_is_fatal (env : Env) (req : Request.t) (topic : value)
        (apiKey : string) (parsedData : json) (mainQuery : string) :
  reaches_assembly env req topic apiKey parsedData ->
  mainQueryOf topic parsedData = Return mainQuery ->
  searchYouTube env MainQuery mainQuery apiKey 5 = Return [] ->
  handler env req = {| status := 500; body := ErrorBody "No videos found for this topic" |} /\
  forall d, body (handler env req) <> ResultBody d.
Proof.
  intros Hreach Hquery Hmain.
  assert (H : handler env req
              = {| status := 500; body := ErrorBody "No videos found for this topic" |}).
  { rewrite (handler_at_assembly env req topic apiKey parsedData Hreach).
    unfold assemble. rewrite Hquery. cbn [bind]. rewrite Hmain. reflexivity. }
  split; [exact H |]. intros d. rewrite H. discriminate.
Qed.

Lemma no_main_candidate_is_fatal_witness :
  handler world_no_main request_photosynthesis
  = {| status := 500; body := ErrorBody "No videos found for this topic" |} /\
  forall d, body (handler world_no_main request_photosynthesis) <> ResultBody d.
Proof.
  apply (no_main_candidate_is_fatal world_no_main request_photosynthesis
           (Some (JStr "Photosynthesis")) "yt-key"
           (fallbackPlan (Some (JStr "Photosynthesis")))
           "Photosynthesis tutorial explained").
  - by_evaluation.
  - reflexivity.
  - reflexivity.
Defined.

Section StatusFacts.

Variable env : Env.





End StatusFacts.



(** Requests whose body cannot be read at all are in the last class: the
    exception is thrown before the topic is looked at.  A body that is not
    JSON makes [req.json()] reject; the body [null] cannot be destructured. *)
Example unreadable_body_is_500 :
  handler world_fallback
    {| Request.method := "POST";
       Request.json := Throw (SyntaxError "Unexpected end of JSON input") |}
  = {| status := 500; body := ErrorBody "Unexpected end of JSON input" |} /\
  status (handler world_fallback (post JNull)) = 500 /\
  handler world_fallback {| Request.method := "OPTIONS"; Request.json := Return JNull |}
  = {| status := 200; body := NoBody |}.
Proof. repeat split. Qed.

(** ** The plan: fallback and number of subtasks *)

Lemma truthy_nonempty_suffix (s : string) (c : ascii) (rest : string) :
  truthy (Some (JStr (s ++ String c rest))) = true.
Proof. destruct s; reflexivity. Qed.

(** ** The subtask branches *)

Lemma get_not_null (j : json) (key : string) :
  j <> JNull -> get (Some j) key = Return (get_opt (Some j) key).
Proof. destruct j; try reflexivity. congruence. Qed.

Lemma rankVideos_nth_error (videos : list YouTubeVideo.t) (rank : nat) (ranked : RankedVideo.t) :
  nth_error (rankVideos videos) rank = Some ranked ->
  exists v,
    nth_error videos rank = Some v /\
    RankedVideo.videoId ranked = YouTubeVideo.videoId v /\
    RankedVideo.views ranked = YouTubeVideo.viewCount v /\
    RankedVideo.engagementScore ranked = YouTubeVideo.engagementScore v /\
    RankedVideo.reason ranked
    = if Nat.eqb rank 0 then "Highest engagement for this topic"
      else "Recommended video #" ++ showZ (Z.of_nat rank + 1).
Proof.
  unfold rankVideos. rewrite mapi_nth_error.
  destruct (nth_error videos rank) as [v |]; [| discriminate].
  cbn [option_map]. intros H. injection H as <-.
  exists v. repeat split.
Qed.

Section BranchFacts.

Variable env : Env.
Variables (topic : value) (apiKey : string).

(** The branch of a subtask that is not [null] resolves, whatever its search
    does: its entry holds the ranked videos of a search that resolved and no
    video otherwise. *)
Lemma subtaskBranch_resolves (idx : nat) (subtask : json) :
  subtask <> JNull ->
  exists query entry,
    subtaskQuery topic subtask = Return query /\
    subtaskBranch env topic apiKey idx subtask = Return entry /\
    subtaskEntry idx subtask (SubtaskResult.videos entry) = Return entry /\
    SubtaskResult.videos entry
    = videosOf (searchYouTube env (SubtaskQuery idx) query apiKey 5).
Proof.
  intros Hnull.
  assert (Hentry : forall videos,
             exists entry, subtaskEntry idx subtask videos = Return entry /\
                           SubtaskResult.videos entry = videos).
  { intros videos. unfold subtaskEntry. rewrite !get_not_null by exact Hnull.
    cbn [bind]. eexists. split; reflexivity. }
  assert (Hquery : exists query, subtaskQuery topic subtask = Return query).
  { unfold subtaskQuery. rewrite !get_not_null by exact Hnull. cbn [bind].
    destruct (truthy (get_opt (Some subtask) "searchQuery")); eexists; reflexivity. }
  destruct Hquery as [query Hquery]. exists query.
  unfold subtaskBranch. rewrite Hquery. cbn [bind].
  destruct (searchYouTube env (SubtaskQuery idx) query apiKey 5) as [videos | e];
    cbn [bind videosOf].
  - destruct (Hentry (rankVideos videos)) as (entry & Hmk & Hvideos).
    exists entry. rewrite Hmk, Hvideos. repeat split. exact Hmk.
  - rewrite get_not_null by exact Hnull. cbn [bind].
    destruct (Hentry []) as (entry & Hmk & Hvideos).
    exists entry. rewrite Hmk, Hvideos. repeat split. exact Hmk.
Qed.

(** A branch that resolved was the branch of a subtask that is not [null]. *)
Lemma subtaskBranch_Return (idx : nat) (subtask : json) (entry : SubtaskResult.t) :
  subtaskBranch env topic apiKey idx subtask = Return entry -> subtask <> JNull.
Proof. intros H ->. discriminate. Qed.

End BranchFacts.

Section AssemblyFacts.

Variable env : Env.
Variables (topic : value) (apiKey : string).

(** The entries [Promise.all] resolves to are those of the branches, by plan
    index. *)
Lemma branches_by_index (subtasks : list json) (entries : list SubtaskResult.t) :
  Promise_all (mapi (subtaskBranch env topic apiKey) subtasks) = Return entries ->
  List.length entries = List.length subtasks /\
  forall idx subtask,
    nth_error subtasks idx = Some subtask ->
    exists entry,
      nth_error entries idx = Some entry /\
      subtaskBranch env topic apiKey idx subtask = Return entry.
Proof.
  intros Hall. destruct (Promise_all_Return _ _ Hall) as [Hlen Hnth].
  rewrite mapi_length in Hlen. split; [exact Hlen |].
  intros idx subtask Hsub.
  destruct (Hnth idx (subtaskBranch env topic apiKey idx subtask)) as (entry & Hb & He).
  - rewrite mapi_nth_error, Hsub. reflexivity.
  - exists entry. split; assumption.
Qed.


Lemma planSubtasks_Return (parsedData : json) (subtasks : list json) :
  planSubtasks parsedData = Return subtasks ->
  exists subtasksValue items,
    get (Some parsedData) "subtasks" = Return subtasksValue /\
    or_else subtasksValue (Some (JArr [])) = Some (JArr items) /\
    subtasks = firstn 5 items.
Proof.
  unfold planSubtasks. intros H.
  destruct (get (Some parsedData) "subtasks") as [subtasksValue | e]; [| discriminate].
  cbn [bind] in H. exists subtasksValue.
  destruct (or_else subtasksValue (Some (JArr []))) as [[| | | | items |] |];
    try discriminate.
  injection H as <-. exists items. repeat split.
Qed.

End AssemblyFacts.

(** A [null] among the subtasks makes [Promise.all] reject. *)
Lemma null_branch_rejects (env : Env) (topic : value) (apiKey : string)
      (subtasks : list json) (start : nat) :
  In JNull subtasks ->
  exists error,
    Promise_all (mapi_from start (subtaskBranch env topic apiKey) subtasks) = Throw error.
Proof.
  revert start. induction subtasks as [| subtask rest IH]; intros start Hin; [destruct Hin |].
  cbn [mapi_from Promise_all].
  destruct (subtaskBranch env topic apiKey start subtask) as [entry | e] eqn:Hbranch.
  - destruct Hin as [-> | Hin]; [discriminate |].
    destruct (IH (S start) Hin) as [error ->]. exists error. reflexivity.
  - exists e. reflexivity.
Qed.


(** C2, as the source has it.  In every success response the number of
    subtasks is at most five: it is the number of entries of the plan's
    [subtasks] array, cut to five (an absent or falsy [subtasks] counts as
    the empty array, so the number may be zero).  The fallback plan, with
    its three subtasks, replaces the reply exactly when the inner [try]
    throws; a reply that parses is the plan, whatever its shape. *)
Theorem subtasks_at_most_five :
  (forall env req st d,
      handler env req = {| status := st; body := ResultBody d |} ->
      (List.length (DiscoveryResult.subtasks d) <= 5)%nat /\
      exists topic apiKey parsedData subtasksValue items,
        reaches_assembly env req topic apiKey parsedData /\
        get (Some parsedData) "subtasks" = Return subtasksValue /\
        or_else subtasksValue (Some (JArr [])) = Some (JArr items) /\
        List.length (DiscoveryResult.subtasks d) = Nat.min 5 (List.length items)) /\
  (forall env topic content error,
      parseContent env content = Throw error ->
      parsedDataOf env topic content = fallbackPlan topic /\
      exists three,
        planSubtasks (fallbackPlan topic) = Return three /\ List.length three = 3%nat) /\
  (forall env topic content data,
      parseContent env content = Return data ->
      parsedDataOf env topic content = data).
Proof.
  split; [| split].
  - intros env req st d Hresponse.
    destruct (handler_result_inv env req st d Hresponse)
      as (topic & apiKey & parsedData & Hreach & Hassemble).
    destruct (assemble_Return env _ _ _ _ Hassemble)
      as (mainQuery & primaryVideo & others & subtasks & entries
          & _ & _ & Hplan & Hall & Hresult).
    injection Hresult as _ ->. cbn [DiscoveryResult.subtasks].
    destruct (branches_by_index env topic apiKey subtasks entries Hall) as [Hlen _].
    destruct (planSubtasks_Return parsedData subtasks Hplan)
      as (subtasksValue & items & Hget & Hor & ->).
    rewrite Hlen, length_firstn.
    split; [apply Nat.le_min_l |].
    exists topic, apiKey, parsedData, subtasksValue, items.
    split; [exact Hreach | split; [exact Hget | split; [exact Hor | reflexivity]]].
  - intros env topic content error Hthrow.
    unfold parsedDataOf. rewrite Hthrow. split; [reflexivity |].
    exists (fallbackSubtasks (toString topic)). split; reflexivity.
  - intros env topic content data Hparse.
    unfold parsedDataOf. rewrite Hparse. reflexivity.
Qed.

(** A plan of seven subtasks yields five; the fallback plan yields three. *)
Lemma subtasks_at_most_five_witness :
  (exists d,
      handler world_long_plan request_photosynthesis = {| status := 200; body := ResultBody d |} /\
      (List.length (DiscoveryResult.subtasks d) <= 5)%nat) /\
  parsedDataOf world_fallback (Some (JStr "Photosynthesis"))
    (Some (JStr "Sorry, I cannot help with that."))
  = fallbackPlan (Some (JStr "Photosynthesis")).
Proof.
  destruct subtasks_at_most_five as (Hfive & Hfallback & _).
  split.
  - eexists. split; [vm_compute; reflexivity |].
    refine (proj1 (Hfive world_long_plan request_photosynthesis 200 _ _)).
    vm_compute. reflexivity.
  - refine (proj1 (Hfallback world_fallback (Some (JStr "Photosynthesis"))
                     (Some (JStr "Sorry, I cannot help with that."))
                     (SyntaxError "Unexpected token") _)).
    reflexivity.
Defined.

(** The fenced plan of seven subtasks is parsed, and the response holds its
    first five. *)
Example long_plan_is_cut_to_five :
  parseContent world_long_plan (Some (JStr (fenced (json_text plan_of_seven))))
  = Return plan_of_seven /\
  exists d,
    handler world_long_plan request_photosynthesis = {| status := 200; body := ResultBody d |} /\
    map SubtaskResult.title (DiscoveryResult.subtasks d)
    = map (fun n => Some (JStr ("Step " ++ showZ n))) [1; 2; 3; 4; 5].
Proof.
  split; [vm_compute; reflexivity |].
  eexists. split; vm_compute; reflexivity.
Qed.

(** C2 as the specification words it does not hold.  A reply that parses to
    a plan with an empty [subtasks] array is not replaced by the fallback
    plan, and the request succeeds with no subtask at all. *)
Lemma plan_without_subtasks_proceeds :
  parseContent world_empty_plan (Some (JStr (json_text plan_without_subtasks)))
  = Return plan_without_subtasks /\
  parsedDataOf world_empty_plan (Some (JStr "Photosynthesis"))
    (Some (JStr (json_text plan_without_subtasks)))
  <> fallbackPlan (Some (JStr "Photosynthesis")) /\
  exists d,
    handler world_empty_plan request_photosynthesis
    = {| status := 200; body := ResultBody d |} /\
    DiscoveryResult.subtasks d = [] /\
    ~ (1 <= List.length (DiscoveryResult.subtasks d) <= 5)%nat.
Proof.
  split; [vm_compute; reflexivity |]. split; [vm_compute; discriminate |].
  eexists. split; [vm_compute; reflexivity |].
  split; [reflexivity |]. cbn. lia.
Qed.

(** ** The entries of the response *)

Section EntryFacts.

Variable env : Env.

Lemma subtaskEntry_Return (idx : nat) (subtask : json) (videos : list RankedVideo.t)
      (entry : SubtaskResult.t) :
  subtaskEntry idx subtask videos = Return entry ->
  entry
  = {| SubtaskResult.title :=
         or_else (get_opt (Some subtask) "title")
                 (Some (JStr ("Part " ++ showZ (Z.of_nat idx + 1))));
       SubtaskResult.description :=
         or_else (get_opt (Some subtask) "searchQuery") (Some (JStr ""));
       SubtaskResult.videos := videos |}.
Proof.
  unfold subtaskEntry.
  destruct subtask; cbn [get get_opt bind]; intros H; try discriminate;
    injection H as <-; reflexivity.
Qed.

Lemma subtaskQuery_Return (topic : value) (subtask : json) (query : string) :
  subtaskQuery topic subtask = Return query ->
  query
  = if truthy (get_opt (Some subtask) "searchQuery")
    then toString (get_opt (Some subtask) "searchQuery")
    else toString topic ++ " " ++ toString (get_opt (Some subtask) "title").
Proof.
  unfold subtaskQuery.
  destruct subtask; cbn [get get_opt bind]; try discriminate;
    try (cbn [truthy undefined]; intros H; injection H as <-; reflexivity).
  destruct (truthy (lookup "searchQuery" fields)); cbn [bind];
    intros H; injection H as <-; reflexivity.
Qed.

(** The entries of a success response, read back to the plan: one entry per
    subtask the plan proceeds with, at the index of the subtask, with the
    ranked videos of the search of that subtask, and none when that search
    threw. *)
Lemma handler_entries (req : Request.t) (st : Z) (d : DiscoveryResult.t) :
  handler env req = {| status := st; body := ResultBody d |} ->
  exists topic apiKey parsedData subtasks,
    reaches_assembly env req topic apiKey parsedData /\
    planSubtasks parsedData = Return subtasks /\
    List.length (DiscoveryResult.subtasks d) = List.length subtasks /\
    forall idx subtask,
      nth_error subtasks idx = Some subtask ->
      exists query,
        subtaskQuery topic subtask = Return query /\
        nth_error (DiscoveryResult.subtasks d) idx
        = Some {| SubtaskResult.title :=
                    or_else (get_opt (Some subtask) "title")
                            (Some (JStr ("Part " ++ showZ (Z.of_nat idx + 1))));
                  SubtaskResult.description :=
                    or_else (get_opt (Some subtask) "searchQuery") (Some (JStr ""));
                  SubtaskResult.videos :=
                    videosOf (searchYouTube env (SubtaskQuery idx) query apiKey 5) |}.
Proof.
  intros Hresponse.
  destruct (handler_result_inv env req st d Hresponse)
    as (topic & apiKey & parsedData & Hreach & Hassemble).
  destruct (assemble_Return env _ _ _ _ Hassemble)
    as (mainQuery & primaryVideo & others & subtasks & entries
        & _ & _ & Hplan & Hall & Hresult).
  injection Hresult as _ Hd. subst d. cbn [DiscoveryResult.subtasks].
  destruct (branches_by_index env topic apiKey subtasks entries Hall) as [Hlen Hnth].
  exists topic, apiKey, parsedData, subtasks.
  split; [exact Hreach |]. split; [exact Hplan |]. split; [exact Hlen |].
  intros idx subtask Hsub.
  destruct (Hnth idx subtask Hsub) as (entry & Hentry & Hbranch).
  destruct (subtaskBranch_resolves env topic apiKey idx subtask
              (subtaskBranch_Return env topic apiKey idx subtask entry Hbranch))
    as (query & entry' & Hquery & Hbranch' & Hmk & Hvideos).
  rewrite Hbranch in Hbranch'. injection Hbranch' as <-.
  exists query. split; [exact Hquery |].
  rewrite Hentry. f_equal.
  rewrite (subtaskEntry_Return idx subtask _ entry Hmk) at 1.
  rewrite Hvideos. reflexivity.
Qed.

(** The ranked list has one video per video found, rank by rank. *)
Lemma rankVideos_at (videos : list YouTubeVideo.t) (rank : nat) (v : YouTubeVideo.t) :
  nth_error videos rank = Some v ->
  nth_error (rankVideos videos) rank
  = Some {| RankedVideo.videoId := YouTubeVideo.videoId v;
            RankedVideo.title := YouTubeVideo.title v;
            RankedVideo.channel := YouTubeVideo.channel v;
            RankedVideo.views := YouTubeVideo.viewCount v;
            RankedVideo.engagementScore := YouTubeVideo.engagementScore v;
            RankedVideo.reason :=
              match rank with
              | O => "Highest engagement for this topic"
              | S _ => "Recommended video #" ++ showZ (Z.of_nat rank + 1)
              end |}.
Proof.
  intros Hv. unfold rankVideos. rewrite mapi_nth_error, Hv.
  destruct rank; reflexivity.
Qed.

End EntryFacts.

(** C8.  When the generative reply cannot be parsed (the inner [try]
    throws), the plan is the fallback plan: the three subtasks "Introduction
    to T", "Core concepts of T" and "Practice T", with the search queries
    "T introduction tutorial", "T explained for beginners" and "T examples
    practice", and the main query "T tutorial explained", where T is the
    text of the topic (the topic itself when it is a string).  A success
    response built from it has these three titles, in this order, these
    queries as descriptions, and a recommended video from the search for
    "T tutorial explained".  The plan depends on the topic only: neither
    the environment nor the reply that failed to parse changes it. *)
Theorem fallback_plan_is_exact :
  (forall env topic content error,
      parseContent env content = Throw error ->
      parsedDataOf env topic content
      = JObj
          [ ("subtasks",
             JArr
               [ JObj [ ("title", JStr ("Introduction to " ++ toString topic));
                        ("searchQuery", JStr (toString topic ++ " introduction tutorial")) ];
                 JObj [ ("title", JStr ("Core concepts of " ++ toString topic));
                        ("searchQuery", JStr (toString topic ++ " explained for beginners")) ];
                 JObj [ ("title", JStr ("Practice " ++ toString topic));
                        ("searchQuery", JStr (toString topic ++ " examples practice")) ] ]);
            ("mainSearchQuery", JStr (toString topic ++ " tutorial explained")) ]) /\
  (forall t : string, toString (Some (JStr t)) = t) /\
  (forall env req topic apiKey content error st d,
      parseContent env content = Throw error ->
      reaches_assembly env req topic apiKey (parsedDataOf env topic content) ->
      handler env req = {| status := st; body := ResultBody d |} ->
      map SubtaskResult.title (DiscoveryResult.subtasks d)
      = [ Some (JStr ("Introduction to " ++ toString topic));
          Some (JStr ("Core concepts of " ++ toString topic));
          Some (JStr ("Practice " ++ toString topic)) ] /\
      map SubtaskResult.description (DiscoveryResult.subtasks d)
      = [ Some (JStr (toString topic ++ " introduction tutorial"));
          Some (JStr (toString topic ++ " explained for beginners"));
          Some (JStr (toString topic ++ " examples practice")) ] /\
      exists primaryVideo others,
        searchYouTube env MainQuery (toString topic ++ " tutorial explained") apiKey 5
        = Return (primaryVideo :: others) /\
        DiscoveryResult.videoId d = YouTubeVideo.videoId primaryVideo) /\
  (forall env env' topic content content' error error',
      parseContent env content = Throw error ->
      parseContent env' content' = Throw error' ->
      parsedDataOf env topic content = parsedDataOf env' topic content').
Proof.
  assert (Hplan : forall env topic content error,
             parseContent env content = Throw error ->
             parsedDataOf env topic content
             = JObj
                 [ ("subtasks",
                    JArr
                      [ JObj [ ("title", JStr ("Introduction to " ++ toString topic));
                               ("searchQuery",
                                JStr (toString topic ++ " introduction tutorial")) ];
                        JObj [ ("title", JStr ("Core concepts of " ++ toString topic));
                               ("searchQuery",
                                JStr (toString topic ++ " explained for beginners")) ];
                        JObj [ ("title", JStr ("Practice " ++ toString topic));
                               ("searchQuery",
                                JStr (toString topic ++ " examples practice")) ] ]);
                   ("mainSearchQuery", JStr (toString topic ++ " tutorial explained")) ]).
  { intros env topic content error Hthrow. unfold parsedDataOf. rewrite Hthrow. reflexivity. }
  split; [exact Hplan |]. split; [reflexivity |]. split.
  - intros env req topic apiKey content error st d Hthrow Hreach Hresponse.
    rewrite (Hplan env topic content error Hthrow) in Hreach.
    destruct (handler_entries env req st d Hresponse)
      as (topic' & apiKey' & parsedData' & subtasks & Hreach' & Hsubtasks & Hlen & Hnth).
    destruct (reaches_assembly_functional env req _ _ _ _ _ _ Hreach Hreach')
      as (<- & <- & <-).
    cbn in Hsubtasks. injection Hsubtasks as <-.
    destruct (Hnth 0%nat _ eq_refl) as (q0 & _ & H0).
    destruct (Hnth 1%nat _ eq_refl) as (q1 & _ & H1).
    destruct (Hnth 2%nat _ eq_refl) as (q2 & _ & H2).
    destruct (DiscoveryResult.subtasks d) as [| e0 [| e1 [| e2 [| e3 rest]]]];
      try discriminate.
    cbn [nth_error] in H0, H1, H2.
    injection H0 as ->. injection H1 as ->. injection H2 as ->.
    cbn [map SubtaskResult.title SubtaskResult.description get_opt lookup
         String.eqb Ascii.eqb Bool.eqb].
    unfold or_else. rewrite !truthy_nonempty_suffix.
    replace (truthy (Some (JStr ("Introduction to " ++ toString topic)))) with true
      by reflexivity.
    replace (truthy (Some (JStr ("Core concepts of " ++ toString topic)))) with true
      by reflexivity.
    replace (truthy (Some (JStr ("Practice " ++ toString topic)))) with true by reflexivity.
    split; [reflexivity |]. split; [reflexivity |].
    destruct (handler_primary env req st d Hresponse)
      as (topic' & apiKey' & parsedData' & mainQuery & items & i & item
          & Hreach'' & Hquery & _).
    destruct (reaches_assembly_functional env req _ _ _ _ _ _ Hreach Hreach'')
      as (<- & <- & <-).
    unfold mainQueryOf in Hquery.
    cbn [get lookup String.eqb Ascii.eqb Bool.eqb bind] in Hquery.
    unfold or_else in Hquery. rewrite truthy_nonempty_suffix in Hquery.
    cbn [toString json_toString] in Hquery. injection Hquery as <-.
    destruct (handler_result_inv env req st d Hresponse)
      as (topic' & apiKey' & parsedData' & Hreach3 & Hassemble).
    destruct (reaches_assembly_functional env req _ _ _ _ _ _ Hreach Hreach3)
      as (<- & <- & <-).
    destruct (assemble_Return env _ _ _ _ Hassemble)
      as (mainQuery & primaryVideo & others & subtasks' & entries
          & Hquery & Hmain & _ & _ & Hresult).
    unfold mainQueryOf in Hquery.
    cbn [get lookup String.eqb Ascii.eqb Bool.eqb bind] in Hquery.
    unfold or_else in Hquery. rewrite truthy_nonempty_suffix in Hquery.
    cbn [toString json_toString] in Hquery. injection Hquery as <-.
    exists primaryVideo, others. split; [exact Hmain |].
    injection Hresult as _ ->. reflexivity.
  - intros env env' topic content content' error error' Hthrow Hthrow'.
    rewrite (Hplan env topic content error Hthrow).
    rewrite (Hplan env' topic content' error' Hthrow'). reflexivity.
Qed.

(** The photosynthesis request in the fallback world, whose gateway
    answers with a text that is not JSON. *)
Lemma fallback_plan_is_exact_witness :
  parsedDataOf world_fallback (Some (JStr "Photosynthesis"))
    (Some (JStr "Sorry, I cannot help with that."))
  = JObj
      [ ("subtasks",
         JArr
           [ JObj [ ("title", JStr "Introduction to Photosynthesis");
                    ("searchQuery", JStr "Photosynthesis introduction tutorial") ];
             JObj [ ("title", JStr "Core concepts of Photosynthesis");
                    ("searchQuery", JStr "Photosynthesis explained for beginners") ];
             JObj [ ("title", JStr "Practice Photosynthesis");
                    ("searchQuery", JStr "Photosynthesis examples practice") ] ]);
        ("mainSearchQuery", JStr "Photosynthesis tutorial explained") ] /\
  exists d,
    handler world_fallback request_photosynthesis
    = {| status := 200; body := ResultBody d |} /\
    map SubtaskResult.title (DiscoveryResult.subtasks d)
    = [ Some (JStr "Introduction to Photosynthesis");
        Some (JStr "Core concepts of Photosynthesis");
        Some (JStr "Practice Photosynthesis") ] /\
    map SubtaskResult.description (DiscoveryResult.subtasks d)
    = [ Some (JStr "Photosynthesis introduction tutorial");
        Some (JStr "Photosynthesis explained for beginners");
        Some (JStr "Photosynthesis examples practice") ].
Proof.
  destruct fallback_plan_is_exact as (Hplan & _ & Hresponse & _).
  split.
  - exact (Hplan world_fallback (Some (JStr "Photosynthesis"))
                 (Some (JStr "Sorry, I cannot help with that."))
                 (SyntaxError "Unexpected token") eq_refl).
  - eexists. split; [vm_compute; reflexivity |].
    match goal with
    | |- map SubtaskResult.title (DiscoveryResult.subtasks ?d) = _ /\ _ =>
        assert (Hd : handler world_fallback request_photosynthesis
                     = {| status := 200; body := ResultBody d |})
          by (vm_compute; reflexivity)
    end.
    destruct (Hresponse world_fallback request_photosynthesis
                        (Some (JStr "Photosynthesis")) "yt-key"
                        (Some (JStr "Sorry, I cannot help with that."))
                        (SyntaxError "Unexpected token") 200 _ eq_refl
                        ltac:(by_evaluation) Hd)
      as (Htitles & Hdescriptions & _).
    split; [exact Htitles | exact Hdescriptions].
Defined.

(** ** Partial failure and the order of the subtasks *)




(** C9.  In a success response the subtasks are those of the plan, in plan
    order: there is one entry per subtask the plan proceeds with, and the
    entry at an index belongs to the subtask at that index.  It carries the
    title of the subtask ("Part N" for the N-th subtask when it has none)
    and its search query as description, and its videos are the videos the
    search for that subtask resolved to, one for one and in their order:
    the video at rank 0 with the reason "Highest engagement for this topic",
    the video at a later rank, the N-th counting from one, with
    "Recommended video #N".  An entry whose search threw has no video. *)
Theorem subtasks_in_plan_order (env : Env) (req : Request.t) (st : Z)
        (d : DiscoveryResult.t) :
  handler env req = {| status := st; body := ResultBody d |} ->
  exists topic apiKey parsedData subtasks,
    reaches_assembly env req topic apiKey parsedData /\
    planSubtasks parsedData = Return subtasks /\
    List.length (DiscoveryResult.subtasks d) = List.length subtasks /\
    forall idx subtask,
      nth_error subtasks idx = Some subtask ->
      exists entry query,
        nth_error (DiscoveryResult.subtasks d) idx = Some entry /\
        SubtaskResult.title entry
        = or_else (get_opt (Some subtask) "title")
                  (Some (JStr ("Part " ++ showZ (Z.of_nat idx + 1)))) /\
        SubtaskResult.description entry
        = or_else (get_opt (Some subtask) "searchQuery") (Some (JStr "")) /\
        query
        = (if truthy (get_opt (Some subtask) "searchQuery")
           then toString (get_opt (Some subtask) "searchQuery")
           else toString topic ++ " " ++ toString (get_opt (Some subtask) "title")) /\
        match searchYouTube env (SubtaskQuery idx) query apiKey 5 with
        | Throw _ => SubtaskResult.videos entry = []
        | Return found =>
            List.length (SubtaskResult.videos entry) = List.length found /\
            forall rank v,
              nth_error found rank = Some v ->
              nth_error (SubtaskResult.videos entry) rank
              = Some {| RankedVideo.videoId := YouTubeVideo.videoId v;
                        RankedVideo.title := YouTubeVideo.title v;
                        RankedVideo.channel := YouTubeVideo.channel v;
                        RankedVideo.views := YouTubeVideo.viewCount v;
                        RankedVideo.engagementScore := YouTubeVideo.engagementScore v;
                        RankedVideo.reason :=
                          match rank with
                          | O => "Highest engagement for this topic"
                          | S _ => "Recommended video #" ++ showZ (Z.of_nat rank + 1)
                          end |}
        end.
Proof.
  intros Hresponse.
  destruct (handler_entries env req st d Hresponse)
    as (topic & apiKey & parsedData & subtasks & Hreach & Hplan & Hlen & Hnth).
  exists topic, apiKey, parsedData, subtasks.
  split; [exact Hreach |]. split; [exact Hplan |]. split; [exact Hlen |].
  intros idx subtask Hsub.
  destruct (Hnth idx subtask Hsub) as (query & Hquery & Hentry).
  eexists. exists query. split; [exact Hentry |].
  cbn [SubtaskResult.title SubtaskResult.description SubtaskResult.videos].
  split; [reflexivity |]. split; [reflexivity |].
  split; [exact (subtaskQuery_Return topic subtask query Hquery) |].
  destruct (searchYouTube env (SubtaskQuery idx) query apiKey 5) as [found | e];
    cbn [videosOf]; [| reflexivity].
  split; [apply mapi_length | apply rankVideos_at].
Qed.

(** The response to the photosynthesis request in the fallback world.  Its
    three entries are those of the three subtasks of the plan; the search
    of the first finds the popular and the modest video, that of the second
    is refused and that of the third finds nothing. *)
Lemma subtasks_in_plan_order_witness :
  exists d,
    handler world_fallback request_photosynthesis
    = {| status := 200; body := ResultBody d |} /\
    map SubtaskResult.title (DiscoveryResult.subtasks d)
    = [ Some (JStr "Introduction to Photosynthesis");
        Some (JStr "Core concepts of Photosynthesis");
        Some (JStr "Practice Photosynthesis") ] /\
    map (fun entry => map RankedVideo.videoId (SubtaskResult.videos entry))
        (DiscoveryResult.subtasks d)
    = [ ["a"; "b"]; []; [] ] /\
    map (fun entry => map RankedVideo.reason (SubtaskResult.videos entry))
        (DiscoveryResult.subtasks d)
    = [ ["Highest engagement for this topic"; "Recommended video #2"]; []; [] ] /\
    exists topic apiKey parsedData subtasks,
      reaches_assembly world_fallback request_photosynthesis topic apiKey parsedData /\
      planSubtasks parsedData = Return subtasks /\
      List.length (DiscoveryResult.subtasks d) = List.length subtasks.
Proof.
  eexists. split; [vm_compute; reflexivity |].
  split; [reflexivity |]. split; [reflexivity |]. split; [reflexivity |].
  match goal with
  | |- exists topic apiKey parsedData subtasks,
         _ /\ _ /\ List.length (DiscoveryResult.subtasks ?d) = _ =>
      assert (Hresponse : handler world_fallback request_photosynthesis
                          = {| status := 200; body := ResultBody d |})
        by (vm_compute; reflexivity)
  end.
  destruct (subtasks_in_plan_order world_fallback request_photosynthesis 200 _ Hresponse)
    as (topic & apiKey & parsedData & subtasks & Hreach & Hplan & Hlen & _).
  exists topic, apiKey, parsedData, subtasks.
  split; [exact Hreach | split; [exact Hplan | exact Hlen]].
Defined.

(** ** View counts in the response *)

Section FormatFacts.

Lemma round_half_even_near (p q : Z) :
  0 < q -> - q <= 2 * (round_half_even p q * q - p) <= q.
Proof.
  intros Hq. unfold round_half_even.
  pose proof (Z.div_mod p q ltac:(lia)) as Hdm.
  pose proof (Z.mod_pos_bound p q Hq) as Hr.
  destruct (Z.ltb_spec (2 * (p mod q)) q).
  - nia.
  - destruct (Z.ltb_spec q (2 * (p mod q))).
    + nia.
    + destruct (Z.even (p / q)); nia.
Qed.

Lemma nearest_tenth_Qmake (m : Z) (d : positive) :
  nearest_tenth (Qmake m d) = (20 * m + Z.pos d) / (2 * Z.pos d).
Proof.
  unfold nearest_tenth, Qfloor, Qplus, Qmult. cbn [Qnum Qden].
  f_equal; lia.
Qed.

(** Rounding the double quotient [a / (10 c)] to one fraction digit gives a
    nearest tenth of the exact quotient, provided the significand is fine
    enough ([2^s > 5 c]) for the rounding of the division not to cross a
    half-way point: the distance of [a] to [n c] is at most [c / 2]. *)
Lemma nearest_tenth_of_double (a c : Z) :
  0 < c -> Z.even c = true ->
  5 * c < 2 ^ (52 - Z.log2 (a / (10 * c))) ->
  - c <= 2 * (a - nearest_tenth (double_div a (10 * c)) * c) <= c.
Proof.
  intros Hc Heven HP. unfold double_div.
  set (s := 52 - Z.log2 (a / (10 * c))) in *.
  set (P := 2 ^ s) in *.
  assert (HPpos : 0 < P) by lia.
  rewrite nearest_tenth_Qmake, Z2Pos.id by exact HPpos.
  set (m := round_half_even (a * P) (10 * c)).
  pose proof (round_half_even_near (a * P) (10 * c) ltac:(lia)) as Hm. fold m in Hm.
  set (n := (20 * m + P) / (2 * P)).
  assert (Hn : 2 * P * n <= 20 * m + P < 2 * P * n + 2 * P).
  { pose proof (Z.div_mod (20 * m + P) (2 * P) ltac:(lia)) as Hdm.
    pose proof (Z.mod_pos_bound (20 * m + P) (2 * P) ltac:(lia)) as Hr.
    fold n in Hdm. lia. }
  apply Z.even_spec in Heven. destruct Heven as [h ->].
  assert (Hk : forall k, 2 * P * k <= 2 * h * P + 20 * h -> k <= h).
  { intros k Hle. destruct (Z.le_gt_cases k h) as [| Hgt]; [assumption | exfalso].
    assert (P * (k - h - 1) >= 0) by nia. nia. }
  split.
  - assert (n * (2 * h) - a <= h); [| lia].
    apply Hk. nia.
  - assert (a - n * (2 * h) <= h); [| lia].
    apply Hk. nia.
Qed.

(** The significand of a quotient below [2^e] has at least [52 - e + 1]
    fraction bits. *)
Lemma scale_of_quotient (a b e : Z) :
  0 < b -> b <= a -> 0 <= e <= 52 -> a < b * 2 ^ e ->
  2 ^ (53 - e) <= 2 ^ (52 - Z.log2 (a / b)).
Proof.
  intros Hb Hab He Hlt.
  assert (Hq : 0 < a / b) by (apply Z.div_str_pos; lia).
  assert (Hlog : Z.log2 (a / b) < e).
  { apply Z.log2_lt_pow2; [exact Hq |].
    apply Z.div_lt_upper_bound; [exact Hb | exact Hlt]. }
  apply Z.pow_le_mono_r; lia.
Qed.

End FormatFacts.

(** C10.  In a success response the view count in the reason of the
    recommended video, and the [views] of every subtask video, is not the
    number but the text [formatViewCount] makes of the view count of the
    very item of the provider's listing the video was made from (of the
    listing for the main query, and of the listing for the query of the
    subtask at the index of the entry), the item having the id, the title
    and the channel of the video; an item without a view count counts as
    0.  For a count below 2^53 (the counts a double holds exactly) that text
    is: the decimal digits of a count below 1000; for a count from 1000 up
    to 999999, a nearest tenth [n / 10] of the count divided by 1000,
    written with one fraction digit and followed by "K"; for a count of at
    least 1000000, a nearest tenth of the count divided by 1000000, written
    likewise and followed by "M". *)
Theorem views_are_formatted :
  (forall env req st d,
      handler env req = {| status := st; body := ResultBody d |} ->
      (exists topic apiKey parsedData mainQuery items i item,
          reaches_assembly env req topic apiKey parsedData /\
          mainQueryOf topic parsedData = Return mainQuery /\
          details_listing env MainQuery mainQuery apiKey 5 items /\
          nth_error items i = Some item /\
          DiscoveryResult.videoId d = Item.id item /\
          DiscoveryResult.title d = Item.snippet_title item /\
          DiscoveryResult.channel d = Item.snippet_channelTitle item /\
          DiscoveryResult.reason d
          = "Best educational video for " ++ dquote ++ toString topic ++ dquote
            ++ " with "
            ++ formatViewCount (match Item.statistics_viewCount item with
                                | Some n => n
                                | None => 0
                                end)
            ++ " views") /\
      (forall idx entry rank video,
          nth_error (DiscoveryResult.subtasks d) idx = Some entry ->
          nth_error (SubtaskResult.videos entry) rank = Some video ->
          exists query apiKey items j item,
            details_listing env (SubtaskQuery idx) query apiKey 5 items /\
            nth_error items j = Some item /\
            RankedVideo.videoId video = Item.id item /\
            RankedVideo.title video = Item.snippet_title item /\
            RankedVideo.channel video = Item.snippet_channelTitle item /\
            RankedVideo.views video
            = formatViewCount (match Item.statistics_viewCount item with
                               | Some n => n
                               | None => 0
                               end))) /\
  (forall count,
      0 <= count < 2 ^ 53 ->
      (count < 1000 -> formatViewCount count = showZ count) /\
      (1000 <= count < 1000000 ->
       exists n,
         formatViewCount count = (showZ (n / 10) ++ "." ++ showZ (n mod 10)) ++ "K" /\
         0 <= n mod 10 <= 9 /\
         Z.abs (10 * count - 1000 * n) <= 500) /\
      (1000000 <= count ->
       exists n,
         formatViewCount count = (showZ (n / 10) ++ "." ++ showZ (n mod 10)) ++ "M" /\
         0 <= n mod 10 <= 9 /\
         Z.abs (10 * count - 1000000 * n) <= 500000)).
Proof.
  split.
  - intros env req st d Hresponse. split.
    + destruct (handler_primary env req st d Hresponse)
        as (topic & apiKey & parsedData & mainQuery & items & i & item
            & Hreach & Hquery & Hlisting & Hitem & Hid & Htitle & Hchannel & Hreason & _).
      exists topic, apiKey, parsedData, mainQuery, items, i, item.
      split; [exact Hreach |]. split; [exact Hquery |]. split; [exact Hlisting |].
      split; [exact Hitem |]. split; [exact Hid |]. split; [exact Htitle |].
      split; [exact Hchannel | exact Hreason].
    + intros idx entry rank video Hentry Hvideo.
      destruct (handler_entries env req st d Hresponse)
        as (topic & apiKey & parsedData & subtasks & Hreach & Hplan & Hlen & Hnth).
      assert (Hlt : (idx < List.length subtasks)%nat).
      { rewrite <- Hlen. apply nth_error_Some. congruence. }
      destruct (nth_error subtasks idx) as [subtask |] eqn:Hsub;
        [| apply nth_error_None in Hsub; lia].
      destruct (Hnth idx subtask Hsub) as (query & Hquery & Hentry').
      rewrite Hentry in Hentry'. injection Hentry' as ->.
      cbn [SubtaskResult.videos] in Hvideo.
      destruct (searchYouTube env (SubtaskQuery idx) query apiKey 5)
        as [found | e] eqn:Hsearch; cbn [videosOf] in Hvideo;
        [| destruct rank; discriminate].
      destruct (rankVideos_nth_error found rank video Hvideo)
        as (v & Hv & Hvid & Hviews & _).
      assert (Hfields : RankedVideo.title video = YouTubeVideo.title v /\
                        RankedVideo.channel video = YouTubeVideo.channel v).
      { rewrite (rankVideos_at found rank v Hv) in Hvideo. injection Hvideo as <-.
        split; reflexivity. }
      destruct Hfields as [Htitle Hchannel].
      destruct (searchYouTube_listing env (SubtaskQuery idx) query apiKey 5 found Hsearch)
        as [-> | (items & Hlisting & Hsorted)]; [destruct rank; discriminate |].
      apply nth_error_In in Hv. rewrite Hsorted in Hv.
      apply (proj1 (Array_sort_In sorts_after _ _)) in Hv.
      destruct (In_mapi_nth_error _ _ _ Hv) as (j & item & Hitem & ->).
      exists query, apiKey, items, j, item.
      split; [exact Hlisting |]. split; [exact Hitem |].
      split; [exact Hvid |]. split; [exact Htitle |]. split; [exact Hchannel | exact Hviews].
  - intros count [Hlo Hhi]. unfold formatViewCount. split; [| split].
    + intros Hsmall.
      destruct (Z.leb_spec 1000000 count); [lia |].
      destruct (Z.leb_spec 1000 count); [lia | reflexivity].
    + intros [Hk1 Hk2].
      destruct (Z.leb_spec 1000000 count); [lia |].
      destruct (Z.leb_spec 1000 count); [| lia].
      exists (nearest_tenth (double_div count 1000)).
      split; [reflexivity |].
      split; [pose proof (Z.mod_pos_bound (nearest_tenth (double_div count 1000)) 10); lia |].
      change 1000 with (10 * 100) at 1 2.
      pose proof (nearest_tenth_of_double count 100 ltac:(lia) eq_refl) as Hnear.
      pose proof (scale_of_quotient count (10 * 100) 10 ltac:(lia) ltac:(lia) ltac:(lia)
                    ltac:(lia)) as Hscale.
      change (2 ^ (53 - 10)) with 8796093022208 in Hscale.
      specialize (Hnear ltac:(lia)). lia.
    + intros Hm.
      destruct (Z.leb_spec 1000000 count); [| lia].
      exists (nearest_tenth (double_div count 1000000)).
      split; [reflexivity |].
      split; [pose proof (Z.mod_pos_bound (nearest_tenth (double_div count 1000000)) 10); lia |].
      change 1000000 with (10 * 100000) at 1 2.
      pose proof (nearest_tenth_of_double count 100000 ltac:(lia) eq_refl) as Hnear.
      change (2 ^ 53) with 9007199254740992 in Hhi.
      pose proof (scale_of_quotient count (10 * 100000) 34 ltac:(lia) ltac:(lia) ltac:(lia)
                    ltac:(change (2 ^ 34) with 17179869184; lia)) as Hscale.
      change (2 ^ (53 - 34)) with 524288 in Hscale.
      specialize (Hnear ltac:(lia)). lia.
Qed.

(** The photosynthesis request in the fallback world: the recommended
    video is the popular item, of 1450000 views, and the first entry lists
    it before the modest item, of 40000 views. *)
Lemma views_are_formatted_witness :
  (exists d,
      handler world_fallback request_photosynthesis
      = {| status := 200; body := ResultBody d |} /\
      DiscoveryResult.reason d
      = "Best educational video for " ++ dquote ++ "Photosynthesis" ++ dquote
        ++ " with 1.4M views" /\
      map (fun entry => map RankedVideo.views (SubtaskResult.videos entry))
          (DiscoveryResult.subtasks d)
      = [ ["1.4M"; "40.0K"]; []; [] ] /\
      exists topic items i item,
        nth_error items i = Some item /\
        DiscoveryResult.videoId d = Item.id item /\
        DiscoveryResult.reason d
        = "Best educational video for " ++ dquote ++ toString topic ++ dquote
          ++ " with "
          ++ formatViewCount (match Item.statistics_viewCount item with
                              | Some n => n
                              | None => 0
                              end)
          ++ " views") /\
  (exists n,
      formatViewCount 1450000 = (showZ (n / 10) ++ "." ++ showZ (n mod 10)) ++ "M" /\
      0 <= n mod 10 <= 9 /\
      Z.abs (10 * 1450000 - 1000000 * n) <= 500000) /\
  (exists n,
      formatViewCount 40000 = (showZ (n / 10) ++ "." ++ showZ (n mod 10)) ++ "K" /\
      0 <= n mod 10 <= 9 /\
      Z.abs (10 * 40000 - 1000 * n) <= 500) /\
  formatViewCount 999 = showZ 999.
Proof.
  destruct views_are_formatted as [Hresponse Hformat].
  split; [| split; [| split]].
  - eexists. split; [vm_compute; reflexivity |].
    split; [reflexivity |]. split; [reflexivity |].
    match goal with
    | |- exists topic items i item, _ /\ DiscoveryResult.videoId ?d = _ /\ _ =>
        assert (Hd : handler world_fallback request_photosynthesis
                     = {| status := 200; body := ResultBody d |})
          by (vm_compute; reflexivity)
    end.
    destruct (proj1 (Hresponse world_fallback request_photosynthesis 200 _ Hd))
      as (topic & apiKey & parsedData & mainQuery & items & i & item
          & _ & _ & _ & Hitem & Hid & _ & _ & Hreason).
    exists topic, items, i, item.
    split; [exact Hitem | split; [exact Hid | exact Hreason]].
  - apply (Hformat 1450000); lia.
  - apply (Hformat 40000); lia.
  - apply (Hformat 999); lia.
Defined.

(** The texts themselves.  1450000 / 1000000 is the double just below 1.45,
    so it shows as 1.4; 1250000 / 1000000 is 1.25 exactly and the tie goes
    up. *)
Example formatViewCount_examples :
  formatViewCount 1450000 = "1.4M" /\
  formatViewCount 1250000 = "1.3M" /\
  formatViewCount 40000 = "40.0K" /\
  formatViewCount 8350 = "8.3K" /\
  formatViewCount 999 = "999" /\
  formatViewCount 0 = "0".
Proof. repeat split; vm_compute; reflexivity. Qed.

(** The whole response to the photosynthesis request in the fallback world,
    read field by field. *)
Example response_in_fallback_world :
  exists d,
    handler world_fallback request_photosynthesis = {| status := 200; body := ResultBody d |} /\
    DiscoveryResult.videoId d = "a" /\
    DiscoveryResult.reason d
    = "Best educational video for " ++ dquote ++ "Photosynthesis" ++ dquote
      ++ " with 1.4M views" /\
    map SubtaskResult.title (DiscoveryResult.subtasks d)
    = [ Some (JStr "Introduction to Photosynthesis");
        Some (JStr "Core concepts of Photosynthesis");
        Some (JStr "Practice Photosynthesis") ] /\
    map (fun entry => map RankedVideo.reason (SubtaskResult.videos entry))
        (DiscoveryResult.subtasks d)
    = [ ["Highest engagement for this topic"; "Recommended video #2"]; []; [] ] /\
    map (fun entry => map RankedVideo.views (SubtaskResult.videos entry))
        (DiscoveryResult.subtasks d)
    = [ ["1.4M"; "40.0K"]; []; [] ].
Proof.
  eexists. split; [vm_compute; reflexivity |].
  repeat split; vm_compute; reflexivity.
Qed.

(** [double_div] is the binary64 quotient on the sample counts, for both
    divisors. *)
Example double_div_is_binary64 :
  forallb (fun count => agrees_with_binary64 count 1000) sample_counts = true /\
  forallb (fun count => agrees_with_binary64 count 1000000)
          (filter (fun count => 1000000 <=? count) sample_counts) = true.
Proof. split; vm_compute; reflexivity. Qed.

(** ** Further properties of the ranking and of the failure paths *)

Section SortFacts.

Local Open Scope Q_scope.

Let score := YouTubeVideo.engagementScore.




End SortFacts.


(** X2.  A failure of the main search is fatal: the request ends with the
    500 response carrying the message of the search. *)
Theorem main_search_failure_is_fatal (env : Env) (req : Request.t) (topic : value)
        (apiKey : string) (parsedData : json) (mainQuery : string) (error : exn) :
  reaches_assembly env req topic apiKey parsedData ->
  mainQueryOf topic parsedData = Return mainQuery ->
  searchYouTube env MainQuery mainQuery apiKey 5 = Throw error ->
  handler env req = {| status := 500; body := ErrorBody (message error) |}.
Proof.
  intros Hreach Hquery Hmain.
  rewrite (handler_at_assembly env req topic apiKey parsedData Hreach).
  unfold assemble. rewrite Hquery. cbn [bind]. rewrite Hmain. reflexivity.
Qed.

Lemma main_search_failure_is_fatal_witness :
  handler world_search_refused request_photosynthesis
  = {| status := 500; body := ErrorBody "YouTube API error: 403" |}.
Proof.
  apply (main_search_failure_is_fatal world_search_refused request_photosynthesis
           (Some (JStr "Photosynthesis")) "yt-key"
           (fallbackPlan (Some (JStr "Photosynthesis")))
           "Photosynthesis tutorial explained"
           (Error "YouTube API error: 403")).
  - by_evaluation.
  - reflexivity.
  - reflexivity.
Defined.

(** X3.  A [null] among the subtasks the plan proceeds with is not absorbed: its
    branch rejects before any search, [Promise.all] rejects, and the request
    ends with a 500 response although the main query found a video. *)
Theorem null_subtask_is_fatal (env : Env) (req : Request.t) (topic : value)
        (apiKey : string) (parsedData : json) (mainQuery : string)
        (primaryVideo : YouTubeVideo.t) (others : list YouTubeVideo.t)
        (subtasks : list json) :
  reaches_assembly env req topic apiKey parsedData ->
  mainQueryOf topic parsedData = Return mainQuery ->
  searchYouTube env MainQuery mainQuery apiKey 5 = Return (primaryVideo :: others) ->
  planSubtasks parsedData = Return subtasks ->
  In JNull subtasks ->
  exists text, handler env req = {| status := 500; body := ErrorBody text |}.
Proof.
  intros Hreach Hquery Hmain Hplan Hnull.
  destruct (null_branch_rejects env topic apiKey subtasks 0 Hnull) as [error Hall].
  exists (message error).
  rewrite (handler_at_assembly env req topic apiKey parsedData Hreach).
  unfold assemble. rewrite Hquery. cbn [bind]. rewrite Hmain. cbn [bind hd_error].
  rewrite Hplan. cbn [bind]. unfold mapi. rewrite Hall. reflexivity.
Qed.

Lemma null_subtask_is_fatal_witness :
  exists text,
    handler world_plan_with_null request_photosynthesis
    = {| status := 500; body := ErrorBody text |}.
Proof.
  apply (null_subtask_is_fatal world_plan_with_null request_photosynthesis
           (Some (JStr "Photosynthesis")) "yt-key"
           plan_with_null
           "cells explained"
           (scoreItem ten_days item_popular)
           [scoreItem ten_days item_modest; scoreItem ten_days item_unrated]
           [JObj [("title", JStr "Cells"); ("searchQuery", JStr "cells")]; JNull]).
  - by_evaluation.
  - reflexivity.
  - vm_compute. reflexivity.
  - reflexivity.
  - right. left. reflexivity.
Defined.
